(** * The V8 correctness fuzzer launcher, [tools/foozzie/v8_foozzie.py]

    A shallow embedding of the launcher script and the properties of its
    verdict pipeline.  The script runs one test case under two d8
    configurations, bails out early on known-bad inputs and outputs, and
    prints a failure report when the outputs of the two runs differ.

    Layout: Python string helpers, SHA-1 ([hashlib.sha1]), the values and
    collaborators the script talks to, an output-and-exception monad, the
    script itself, and then the theorems. *)

From Stdlib Require Import ZArith List String Ascii Bool Lia DecimalString.
From stdpp Require Import base option list strings gmap.
Import ListNotations.

Local Open Scope string_scope.
Local Open Scope list_scope.
Local Open Scope Z_scope.

(** ** Python string helpers (8-bit [str] of Python 2) *)

Module PyStr.

(** [c.isspace()] in the C locale: space, \t, \n, \v, \f, \r. *)
Definition isspace (c : ascii) : bool :=
  let n := nat_of_ascii c in
  (n =? 32)%nat || ((9 <=? n)%nat && (n <=? 13)%nat).

Fixpoint lstrip (s : string) : string :=
  match s with
  | EmptyString => EmptyString
  | String c s' => if isspace c then lstrip s' else s
  end.

Fixpoint rstrip (s : string) : string :=
  match s with
  | EmptyString => EmptyString
  | String c s' =>
      match rstrip s' with
      | EmptyString => if isspace c then EmptyString else String c EmptyString
      | r => String c r
      end
  end.

(** [s.strip()] *)
Definition strip (s : string) : string := rstrip (lstrip s).

Fixpoint all_space (s : string) : bool :=
  match s with
  | EmptyString => true
  | String c s' => isspace c && all_space s'
  end.

(** Truth value of a string: [bool(s)]. *)
Definition truthy (s : string) : bool :=
  match s with EmptyString => false | _ => true end.

(** [s[n:]] *)
Fixpoint drop (n : nat) (s : string) : string :=
  match n, s with
  | O, _ => s
  | S n', String _ s' => drop n' s'
  | S _, EmptyString => EmptyString
  end.

(** [s[:n]] *)
Fixpoint take (n : nat) (s : string) : string :=
  match n, s with
  | S n', String c s' => String c (take n' s')
  | _, _ => EmptyString
  end.

(** [s.startswith(p)] *)
Fixpoint startswith (p s : string) : bool :=
  match p, s with
  | EmptyString, _ => true
  | String a p', String b s' => Ascii.eqb a b && startswith p' s'
  | String _ _, EmptyString => false
  end.

(** [s.endswith(p)] *)
Definition endswith (s p : string) : bool :=
  (String.length p <=? String.length s)%nat
  && String.eqb (drop (String.length s - String.length p) s) p.

(** [sep.join(l)] *)
Fixpoint join (sep : string) (l : list string) : string :=
  match l with
  | [] => EmptyString
  | [x] => x
  | x :: l' => x +:+ sep +:+ join sep l'
  end.

Definition LF : ascii := ascii_of_nat 10.
Definition CR : ascii := ascii_of_nat 13.

(** [s.splitlines()]: lines end at \n, \r or \r\n; no line after a final
    line end. *)
Fixpoint splitlines (s : string) : list string :=
  match s with
  | EmptyString => []
  | String c s' =>
      if Ascii.eqb c LF then EmptyString :: splitlines s'
      else if Ascii.eqb c CR then
        match s' with
        | String c' s'' =>
            if Ascii.eqb c' LF then EmptyString :: splitlines s''
            else EmptyString :: splitlines s'
        | EmptyString => [EmptyString]
        end
      else
        match splitlines s' with
        | [] => [String c EmptyString]
        | l :: ls => String c l :: ls
        end
  end.

(** [str(n)] for an integer. *)
Definition str (n : Z) : string := NilZero.string_of_int (Z.to_int n).

(** A string of one line feed, the line end of the templates. *)
Definition nl : string := String LF EmptyString.

(** [lines l] is the text whose lines are [l], each ended by a line
    feed. *)
Fixpoint lines (l : list string) : string :=
  match l with
  | [] => EmptyString
  | x :: l' => x +:+ nl +:+ lines l'
  end.

End PyStr.

(** ** [hashlib.sha1]: SHA-1 of FIPS 180-4 on byte strings *)

Module SHA1.

Definition mask32 (x : Z) : Z := Z.land x 4294967295.

Definition add32 (x y : Z) : Z := mask32 (x + y).

Definition rotl (n x : Z) : Z :=
  mask32 (Z.lor (Z.shiftl x n) (Z.shiftr x (32 - n))).

Definition not32 (x : Z) : Z := Z.lxor x 4294967295.

Fixpoint bytes_of (s : string) : list Z :=
  match s with
  | EmptyString => []
  | String c s' => Z.of_nat (nat_of_ascii c) :: bytes_of s'
  end.

(** Big-endian bytes of [x], [n] of them. *)
Fixpoint be_bytes (n : nat) (x : Z) : list Z :=
  match n with
  | O => []
  | S n' => Z.land (Z.shiftr x (8 * Z.of_nat n')) 255 :: be_bytes n' x
  end.

(** The message, a 1 bit, zeros up to 56 modulo 64, and the bit length
    on 64 bits. *)
Definition pad (msg : list Z) : list Z :=
  let len := Z.of_nat (List.length msg) in
  msg ++ [128] ++ List.repeat 0 (Z.to_nat ((55 - len) mod 64))
      ++ be_bytes 8 (8 * len).

Fixpoint be_words (fuel : nat) (bs : list Z) : list Z :=
  match fuel, bs with
  | S fuel', b0 :: b1 :: b2 :: b3 :: bs' =>
      (Z.shiftl b0 24 + Z.shiftl b1 16 + Z.shiftl b2 8 + b3)
        :: be_words fuel' bs'
  | _, _ => []
  end.

(** The message schedule: [n] more words after the words [w]. *)
Fixpoint extend (n : nat) (w : list Z) : list Z :=
  match n with
  | O => w
  | S n' =>
      let i := List.length w in
      let at_ k := List.nth (i - k) w 0 in
      extend n'
        (w ++ [rotl 1 (Z.lxor (Z.lxor (at_ 3%nat) (at_ 8%nat))
                              (Z.lxor (at_ 14%nat) (at_ 16%nat)))])
  end.

Definition state : Type := Z * Z * Z * Z * Z.

Definition f_k (i : nat) (b c d : Z) : Z * Z :=
  if (i <? 20)%nat then
    (Z.lor (Z.land b c) (Z.land (not32 b) d), 1518500249)
  else if (i <? 40)%nat then
    (Z.lxor (Z.lxor b c) d, 1859775393)
  else if (i <? 60)%nat then
    (Z.lor (Z.lor (Z.land b c) (Z.land b d)) (Z.land c d), 2400959708)
  else
    (Z.lxor (Z.lxor b c) d, 3395469782).

Definition round (st : state) (iw : nat * Z) : state :=
  let '(a, b, c, d, e) := st in
  let '(i, w) := iw in
  let '(f, k) := f_k i b c d in
  let temp := add32 (add32 (add32 (add32 (rotl 5 a) f) e) k) w in
  (temp, a, rotl 30 b, c, d).

Fixpoint number {A} (i : nat) (l : list A) : list (nat * A) :=
  match l with
  | [] => []
  | x :: l' => (i, x) :: number (S i) l'
  end.

Definition chunk (h : state) (block : list Z) : state :=
  let w := extend 64 (be_words 16 block) in
  let '(a, b, c, d, e) := List.fold_left round (number 0 w) h in
  let '(h0, h1, h2, h3, h4) := h in
  (add32 h0 a, add32 h1 b, add32 h2 c, add32 h3 d, add32 h4 e).

Fixpoint chunks (fuel : nat) (h : state) (bs : list Z) : state :=
  match fuel, bs with
  | S fuel', _ :: _ =>
      chunks fuel' (chunk h (List.firstn 64 bs)) (List.skipn 64 bs)
  | _, _ => h
  end.

Definition init : state :=
  (1732584193, 4023233417, 2562383102, 271733878, 3285377520).

Definition hex_digit (x : Z) : ascii :=
  let n := Z.to_nat (Z.land x 15) in
  if (n <? 10)%nat then ascii_of_nat (48 + n) else ascii_of_nat (87 + n).

(** The [n] low hex digits of [x], most significant first. *)
Fixpoint hex (n : nat) (x : Z) (rest : string) : string :=
  match n with
  | O => rest
  | S n' => String (hex_digit (Z.shiftr x (4 * Z.of_nat n'))) (hex n' x rest)
  end.

(** [hashlib.sha1(s).hexdigest()] *)
Definition hexdigest (s : string) : string :=
  let bs := pad (bytes_of s) in
  let '(h0, h1, h2, h3, h4) := chunks (List.length bs) init bs in
  hex 8 h0 (hex 8 h1 (hex 8 h2 (hex 8 h3 (hex 8 h4 EmptyString)))).

End SHA1.

(** ** Values and collaborators *)

(** Exceptions, by the two classes the script tells apart: [SystemExit]
    ([argparse] exits on wrong usage) and the subclasses of [Exception],
    with their class name and message. *)
Inductive exn : Type :=
| SystemExit
| Exception (cls msg : string).

Inductive result (A : Type) : Type :=
| Ok (a : A)
| Raise (e : exn).
Arguments Ok {A} a.
Arguments Raise {A} e.

(** Modelled from the spec: the Execution Result that
    [v8_commands.Execute] returns; [v8_commands] is not among the sources.
    The script looks at it through [HasTimedOut()], [HasCrashed()] and
    [stdout] only, and the record holds what these give. *)
Record Output : Type := {
  HasTimedOut : bool;
  HasCrashed : bool;
  stdout : string
}.

(** Modelled from the spec: the exit category of an Execution Result.
    Exactly one holds; a run is timed out when [HasTimedOut()] says so,
    crashed when it is not timed out and [HasCrashed()] says so, in the
    order [pass_bailout] asks, and normal otherwise. *)
Inductive ExitCategory : Type := Normal | TimedOut | Crashed.

Definition exitCategory (o : Output) : ExitCategory :=
  if HasTimedOut o then TimedOut
  else if HasCrashed o then Crashed
  else Normal.

(** Modelled from the spec: the Suppression Engine, the object that
    [v8_suppressions.get_suppression] returns; [v8_suppressions] is not
    among the sources.  It has four callables, and each returns [None] or
    a string, or raises. *)
Record Suppression : Type := {
  ignore : string -> result (option string);
  ignore_by_output1 : string -> result (option string);
  ignore_by_output2 : string -> result (option string);
  diff : string -> string -> result (option string)
}.

(** Python values as [json.load] builds them; a dict lists its items in
    iteration order. *)
#[warnings="-register-all"] Inductive PyVal : Type :=
| PyNone
| PyBool (b : bool)
| PyInt (n : Z)
| PyFloat (repr : string)
| PyStr (s : string)
| PyList (l : list PyVal)
| PyDict (items : list (string * PyVal)).

(** What [parser.parse_args()] returns. *)
Record Namespace : Type := {
  ns_random_seed : Z;
  ns_first_arch : string;
  ns_second_arch : string;
  ns_first_config : string;
  ns_second_config : string;
  ns_first_d8 : string;
  ns_second_d8 : option string;
  ns_testcase : string
}.

(** The options [parse_args] returns: the namespace with [second_d8]
    defaulted, both executables absolute and [meta_data_path] added. *)
Record Options : Type := {
  random_seed : Z;
  first_arch : string;
  second_arch : string;
  first_config : string;
  second_config : string;
  first_d8 : string;
  second_d8 : string;
  testcase : string;
  meta_data_path : string
}.

(** Everything outside the script: the command line as [argparse] reads
    it, the file system, [os.path], [json], the two sibling modules and
    the interpreter.  [argparse] is the namespace that
    [parser.parse_args()] returns, or what it raises; the usage or help
    text that it writes itself before it raises [SystemExit] is no event
    of the traces below, which hold what the script prints. *)
Record Env : Type := {
  argparse : result Namespace;
  os_path_exists : string -> bool;
  os_path_isfile : string -> bool;
  os_path_dirname : string -> string;
  os_path_basename : string -> string;
  os_path_join : string -> string -> string;
  os_path_abspath : string -> string;
  file_read : string -> result string;
  json_loads : string -> result PyVal;
  get_suppression : string -> string -> string -> string -> result Suppression;
  Execute : list string -> string -> Z -> result Output;
  sys_executable : string;
  script_file : string
}.

(** What the script does that can be seen from outside. *)
Inductive Event : Type :=
| Open (path : string)
| JsonLoad (path : string)
| Exec (args : list string) (cwd : string) (timeout : Z) (out : result Output)
| Print (text : string)
| PrintExc (e : exn).

(** ** Computations: a trace of events and a value or an exception *)

Definition M (A : Type) : Type := list Event * result A.

Definition ret {A} (a : A) : M A := ([], Ok a).

Definition raise {A} (e : exn) : M A := ([], Raise e).

Definition bind {A B} (m : M A) (k : A -> M B) : M B :=
  match m with
  | (tr, Ok a) => let '(tr', r) := k a in (tr ++ tr', r)
  | (tr, Raise e) => (tr, Raise e)
  end.

Definition lift {A} (r : result A) : M A := ([], r).

Definition emit (e : Event) : M unit := ([e], Ok tt).

Declare Scope py_scope.
Delimit Scope py_scope with py.
Notation "x <- m ;; k" := (bind m (fun x => k))
  (at level 100, m at next level, right associativity) : py_scope.
Notation "m ;; k" := (bind m (fun _ => k))
  (at level 100, right associativity) : py_scope.
Local Open Scope py_scope.

(** [print text] *)
Definition print (text : string) : M unit := emit (Print text).

(** [assert c, msg] *)
Definition assert (c : bool) (msg : string) : M unit :=
  if c then ret tt else raise (Exception "AssertionError" msg).

(** The subprocess runs of a trace, in order. *)
Fixpoint runs (tr : list Event) : list (result Output) :=
  match tr with
  | [] => []
  | Exec _ _ _ out :: tr' => out :: runs tr'
  | _ :: tr' => runs tr'
  end.

(** The command lines of the subprocess runs of a trace, in order. *)
Fixpoint commands (tr : list Event) : list (list string * string * Z) :=
  match tr with
  | [] => []
  | Exec args cwd timeout _ :: tr' => (args, cwd, timeout) :: commands tr'
  | _ :: tr' => commands tr'
  end.

(** The texts printed with [print] in a trace, in order. *)
Fixpoint printed (tr : list Event) : list string :=
  match tr with
  | [] => []
  | Print text :: tr' => text :: printed tr'
  | _ :: tr' => printed tr'
  end.

(** The files whose content [json.load] was given. *)
Fixpoint json_loaded (tr : list Event) : list string :=
  match tr with
  | [] => []
  | JsonLoad path :: tr' => path :: json_loaded tr'
  | _ :: tr' => json_loaded tr'
  end.

(** ** The script *)

Definition CONFIGS : gmap string (list string) :=
  list_to_map [
    ("default", []);
    ("validate_asm", ["--validate-asm"]);
    ("fullcode", ["--nocrankshaft"; "--turbo-filter=~"]);
    ("noturbo", ["--turbo-filter=~"; "--noturbo-asm"]);
    ("noturbo_opt", ["--always-opt"; "--turbo-filter=~"; "--noturbo-asm"]);
    ("ignition_staging", ["--ignition-staging"]);
    ("ignition_turbo", ["--ignition-staging"; "--turbo"]);
    ("ignition_turbo_opt", ["--ignition-staging"; "--turbo"; "--always-opt"])
  ].

(** Timeout in seconds for one d8 run. *)
Definition TIMEOUT : Z := 3.

(** Return codes. *)
Definition RETURN_PASS : Z := 0.
Definition RETURN_FAIL : Z := 2.

Definition FLAGS : list string :=
  ["--abort_on_stack_overflow"; "--expose-gc"; "--allow-natives-syntax";
   "--invoke-weak-callbacks"; "--omit-quit"; "--es-staging"].

Definition SUPPORTED_ARCHS : list string := ["ia32"; "x64"; "arm"; "arm64"].

(** Output for suppressed failure case:
    [FAILURE_HEADER_TEMPLATE % dict(configs=.., sources=.., suppression=..)]. *)
Definition FAILURE_HEADER_TEMPLATE (configs sources suppression : string)
  : string :=
  PyStr.lines [
    "#";
    "# V8 correctness failure";
    "# V8 correctness configs: " +:+ configs;
    "# V8 correctness sources: " +:+ sources;
    "# V8 correctness suppression: " +:+ suppression
  ].

(** The keys of the dict [FAILURE_TEMPLATE] is filled from. *)
Record Fields : Type := {
  configs : string;
  sources : string;
  suppression : string;
  first_config_label : string;
  second_config_label : string;
  first_config_flags : string;
  second_config_flags : string;
  first_config_output : string;
  second_config_output : string;
  difference : string
}.

(** Extended output for failure case: [FAILURE_TEMPLATE % dict(..)]. *)
Definition FAILURE_TEMPLATE (d : Fields) : string :=
  FAILURE_HEADER_TEMPLATE (configs d) (sources d) (suppression d) +:+
  PyStr.lines [
    "#";
    "# CHECK";
    "#";
    "# Compared " +:+ first_config_label d +:+ " with "
      +:+ second_config_label d;
    "#";
    "# Flags of " +:+ first_config_label d +:+ ":";
    first_config_flags d;
    "# Flags of " +:+ second_config_label d +:+ ":";
    second_config_flags d;
    "#";
    "# Difference:";
    difference d;
    "#";
    "### Start of configuration " +:+ first_config_label d +:+ ":";
    first_config_output d;
    "### End of configuration " +:+ first_config_label d;
    "#";
    "### Start of configuration " +:+ second_config_label d +:+ ":";
    second_config_output d;
    "### End of configuration " +:+ second_config_label d
  ].

(** [x or ''] for [x] that is [None] or a string. *)
Definition or_empty (x : option string) : string :=
  match x with
  | Some s => s
  | None => EmptyString
  end.

(** [bool(x)] for [x] that is [None] or a string. *)
Definition truthy (x : option string) : bool := PyStr.truthy (or_empty x).

(** [v[key]] for a string key. *)
Definition getitem (v : PyVal) (key : string) : result PyVal :=
  match v with
  | PyDict items =>
      match List.find (fun kv => String.eqb (fst kv) key) items with
      | Some kv => Ok (snd kv)
      | None => Raise (Exception "KeyError" ("'" +:+ key +:+ "'"))
      end
  | PyList _ =>
      Raise (Exception "TypeError" "list indices must be integers, not str")
  | PyStr _ =>
      Raise (Exception "TypeError" "string indices must be integers")
  | _ => Raise (Exception "TypeError" "object has no attribute '__getitem__'")
  end.

Fixpoint chars (s : string) : list PyVal :=
  match s with
  | EmptyString => []
  | String c s' => PyStr (String c EmptyString) :: chars s'
  end.

(** The elements [map] goes through when it is given [v]. *)
Definition iter (v : PyVal) : result (list PyVal) :=
  match v with
  | PyList l => Ok l
  | PyStr s => Ok (chars s)
  | PyDict items => Ok (List.map (fun kv => PyStr (fst kv)) items)
  | _ => Raise (Exception "TypeError" "argument 2 to map() must support iteration")
  end.

(** The strings of a [PyVal] are the [unicode] objects of [json.load], a
    character standing for a code point below 256.  [hashlib.sha1] takes
    bytes: Python 2 encodes a [unicode] argument with the ASCII codec,
    which raises [UnicodeEncodeError] at the first code points above
    127. *)
Definition is_ascii (c : ascii) : bool := (nat_of_ascii c <? 128)%nat.

Fixpoint ascii_text (s : string) : bool :=
  match s with
  | EmptyString => true
  | String c s' => is_ascii c && ascii_text s'
  end.

(** The number of leading characters of [s] that satisfy [p]. *)
Fixpoint span (p : ascii -> bool) (s : string) : nat :=
  match s with
  | EmptyString => O
  | String c s' => if p c then S (span p s') else O
  end.

(** [str(e)] for the [UnicodeEncodeError] of the ASCII codec on [s]: it
    names the first run of characters that cannot be encoded, by its
    positions, and the character itself when the run is one character
    long. *)
Definition ascii_codec_error (s : string) : string :=
  let start := span is_ascii s in
  let bad := PyStr.drop start s in
  let stop := (start + span (fun c => negb (is_ascii c)) bad)%nat in
  "'ascii' codec can't encode "
  +:+ (match bad with
       | String c _ =>
           if (stop =? start + 1)%nat then
             "character u'\x" +:+ SHA1.hex 2 (Z.of_nat (nat_of_ascii c)) EmptyString
             +:+ "' in position " +:+ PyStr.str (Z.of_nat start)
           else
             "characters in position " +:+ PyStr.str (Z.of_nat start)
             +:+ "-" +:+ PyStr.str (Z.of_nat (stop - 1))
       | EmptyString => "characters in position "
                        +:+ PyStr.str (Z.of_nat start)
       end)
  +:+ ": ordinal not in range(128)".

(** [s.encode('ascii')], the bytes that a function taking bytes gets from
    a [unicode] argument. *)
Definition encode_ascii (s : string) : result string :=
  if ascii_text s then Ok s
  else Raise (Exception "UnicodeEncodeError" (ascii_codec_error s)).

(** [hsh = lambda x: hashlib.sha1(x).hexdigest()[:8]] *)
Definition hsh (x : PyVal) : result string :=
  match x with
  | PyStr s =>
      match encode_ascii s with
      | Ok bytes => Ok (PyStr.take 8 (SHA1.hexdigest bytes))
      | Raise e => Raise e
      end
  | _ => Raise (Exception "TypeError" "must be string or buffer")
  end.

Fixpoint map_result {A B} (f : A -> result B) (l : list A) : result (list B) :=
  match l with
  | [] => Ok []
  | x :: l' =>
      match f x with
      | Ok y =>
          match map_result f l' with
          | Ok ys => Ok (y :: ys)
          | Raise e => Raise e
          end
      | Raise e => Raise e
      end
  end.

(** [','.join(map(hsh, metadata['sources']))] *)
Definition sources_fingerprint (metadata : PyVal) : result string :=
  match getitem metadata "sources" with
  | Ok v =>
      match iter v with
      | Ok l =>
          match map_result hsh l with
          | Ok hs => Ok (PyStr.join "," hs)
          | Raise e => Raise e
          end
      | Raise e => Raise e
      end
  | Raise e => Raise e
  end.

(** Print info and return if in timeout or crash pass states. *)
Definition pass_bailout (output : Output) (step_number : Z) : M bool :=
  if HasTimedOut output then
    print ("# V8 correctness - T-I-M-E-O-U-T " +:+ PyStr.str step_number);;
    ret true
  else if HasCrashed output then
    print ("# V8 correctness - C-R-A-S-H " +:+ PyStr.str step_number);;
    ret true
  else ret false.

(** Print failure state and return if ignore_by_output_fun matches output. *)
Definition fail_bailout (output : Output)
    (ignore_by_output_fun : string -> result (option string)) : M bool :=
  x <- lift (ignore_by_output_fun (stdout output));;
  let bug := PyStr.strip (or_empty x) in
  if PyStr.truthy bug then
    print (FAILURE_HEADER_TEMPLATE "" "" bug);;
    ret true
  else ret false.

Section Script.

Variable env : Env.

Definition BASE_PATH : string :=
  os_path_dirname env (os_path_abspath env (script_file env)).

Definition PREAMBLE : list string :=
  [os_path_join env BASE_PATH "v8_mock.js";
   os_path_join env BASE_PATH "v8_suppressions.js"].

(** [with open(path) as f: f.read()] *)
Definition open_read (path : string) : M string :=
  emit (Open path);;
  lift (file_read env path).

Definition parse_args : M Options :=
  ns <- lift (argparse env);;
  (* Ensure we make a sane comparison. *)
  assert (negb (String.eqb (ns_first_arch ns) (ns_second_arch ns))
          || negb (String.eqb (ns_first_config ns) (ns_second_config ns)))
         "Need either arch or config difference.";;
  assert (bool_decide (ns_first_arch ns ∈ SUPPORTED_ARCHS)) "";;
  assert (bool_decide (ns_second_arch ns ∈ SUPPORTED_ARCHS)) "";;
  assert (bool_decide (is_Some (CONFIGS !! ns_first_config ns))) "";;
  assert (bool_decide (is_Some (CONFIGS !! ns_second_config ns))) "";;
  (* Ensure we have a test case. *)
  assert (os_path_exists env (ns_testcase ns)
          && os_path_isfile env (ns_testcase ns))
         ("Test case " +:+ ns_testcase ns +:+ " doesn't exist");;
  let resources_path :=
    os_path_join env
      (os_path_dirname env (ns_testcase ns))
      ("resources"
         +:+ PyStr.drop 4 (os_path_basename env (ns_testcase ns))) in
  assert (os_path_exists env resources_path)
         ("Resources file " +:+ resources_path +:+ " doesn't exist");;
  content <- open_read resources_path;;
  let resources := PyStr.splitlines (PyStr.strip content) in
  assert (List.length resources =? 1)%nat "";;
  let meta_data_path :=
    os_path_join env (os_path_dirname env resources_path)
      (List.nth 0 resources EmptyString) in
  assert (os_path_exists env meta_data_path)
         ("Metadata " +:+ meta_data_path +:+ " doesn't exist");;
  (* Use first d8 as default for second d8. *)
  let second_d8 :=
    if truthy (ns_second_d8 ns) then or_empty (ns_second_d8 ns)
    else ns_first_d8 ns in
  (* Ensure absolute paths. *)
  let first_d8 := os_path_abspath env (ns_first_d8 ns) in
  let second_d8 := os_path_abspath env second_d8 in
  (* Ensure executables exist. *)
  assert (os_path_exists env first_d8) "";;
  assert (os_path_exists env second_d8) "";;
  (* Ensure we use different executables when we claim we compare
     different architectures. *)
  (if negb (String.eqb (ns_first_arch ns) (ns_second_arch ns))
   then assert (negb (String.eqb first_d8 second_d8)) ""
   else ret tt);;
  ret {| random_seed := ns_random_seed ns;
         first_arch := ns_first_arch ns;
         second_arch := ns_second_arch ns;
         first_config := ns_first_config ns;
         second_config := ns_second_config ns;
         first_d8 := first_d8;
         second_d8 := second_d8;
         testcase := ns_testcase ns;
         meta_data_path := meta_data_path |}.

(** Print failure state and return if ignore_fun matches testcase. *)
Definition test_pattern_bailout (testcase : string)
    (ignore_fun : string -> result (option string)) : M bool :=
  text <- open_read testcase;;
  x <- lift (ignore_fun text);;
  let bug := PyStr.strip (or_empty x) in
  if PyStr.truthy bug then
    print (FAILURE_HEADER_TEMPLATE "" "" bug);;
    ret true
  else ret false.

(** [CONFIGS[name]] *)
Definition config_flags (name : string) : M (list string) :=
  match CONFIGS !! name with
  | Some flags => ret flags
  | None => raise (Exception "KeyError" ("'" +:+ name +:+ "'"))
  end.

(** The local function [run_d8] of [main]. *)
Definition run_d8 (options : Options) (d8 : string)
    (config_flags : list string) : M Output :=
  let args := [d8] ++ config_flags ++ PREAMBLE ++ [testcase options] in
  let args :=
    if PyStr.endswith d8 ".py" then
      (* Wrap with python in tests. *)
      [sys_executable env] ++ args
    else args in
  let cwd := os_path_dirname env (testcase options) in
  let out := Execute env args cwd TIMEOUT in
  emit (Exec args cwd TIMEOUT out);;
  lift out.

Definition main : M Z :=
  options <- parse_args;;
  (* Suppressions are architecture and configuration specific. *)
  suppress <- lift (get_suppression env
                      (first_arch options) (first_config options)
                      (second_arch options) (second_config options));;
  bailout <- test_pattern_bailout (testcase options) (ignore suppress);;
  if bailout : bool then ret RETURN_FAIL else
  (* Get metadata. *)
  content <- open_read (meta_data_path options);;
  emit (JsonLoad (meta_data_path options));;
  metadata <- lift (json_loads env content);;
  let common_flags := FLAGS ++ ["--random-seed"; PyStr.str (random_seed options)] in
  flags1 <- config_flags (first_config options);;
  let first_config_flags := common_flags ++ flags1 in
  flags2 <- config_flags (second_config options);;
  let second_config_flags := common_flags ++ flags2 in
  first_config_output <- run_d8 options (first_d8 options) first_config_flags;;
  (* Early bailout based on first run's output. *)
  bailout <- pass_bailout first_config_output 1;;
  if bailout : bool then ret RETURN_PASS else
  bailout <- fail_bailout first_config_output (ignore_by_output1 suppress);;
  if bailout : bool then ret RETURN_FAIL else
  second_config_output <- run_d8 options (second_d8 options) second_config_flags;;
  (* Bailout based on second run's output. *)
  bailout <- pass_bailout second_config_output 2;;
  if bailout : bool then ret RETURN_PASS else
  bailout <- fail_bailout second_config_output (ignore_by_output2 suppress);;
  if bailout : bool then ret RETURN_FAIL else
  difference <- lift (diff suppress (stdout first_config_output)
                                    (stdout second_config_output));;
  if truthy difference then
    (* The first three entries will be parsed by clusterfuzz. *)
    let first_config_label :=
      first_arch options +:+ "," +:+ first_config options in
    let second_config_label :=
      second_arch options +:+ "," +:+ second_config options in
    sources <- lift (sources_fingerprint metadata);;
    print (FAILURE_TEMPLATE
             {| configs := first_config_label +:+ ":" +:+ second_config_label;
                sources := sources;
                suppression := ""; (* We can't tie bugs to differences. *)
                first_config_label := first_config_label;
                second_config_label := second_config_label;
                first_config_flags := PyStr.join " " first_config_flags;
                second_config_flags := PyStr.join " " second_config_flags;
                first_config_output := stdout first_config_output;
                second_config_output := stdout second_config_output;
                difference := or_empty difference |});;
    ret RETURN_FAIL
  else
    print "# V8 correctness - pass";;
    ret RETURN_PASS.

(** The block under [if __name__ == "__main__":]; the value is the trace
    and the status given to [sys.exit]. *)
Definition __main__ : list Event * Z :=
  match main with
  | (tr, Ok result) => (tr, result)
  | (tr, Raise SystemExit) =>
      (* Make sure clusterfuzz reports internal errors and wrong usage. *)
      (tr ++ [Print (FAILURE_HEADER_TEMPLATE "" "" "wrong_usage")],
       RETURN_FAIL)
  | (tr, Raise (Exception cls msg)) =>
      (tr ++ [Print (FAILURE_HEADER_TEMPLATE "" "" "internal_error");
              Print ("# Internal error: " +:+ msg);
              PrintExc (Exception cls msg)],
       RETURN_FAIL)
  end.

End Script.


(** ** Concrete environments

    A small file system with POSIX paths, a test case with its resources
    and metadata files, and stub collaborators; the scenarios below are
    run through the script in the examples. *)

Module Demo.

Fixpoint split_last (s : string) : option (string * string) :=
  match s with
  | EmptyString => None
  | String c s' =>
      match split_last s' with
      | Some (d, b) => Some (String c d, b)
      | None => if Ascii.eqb c "/" then Some (EmptyString, s') else None
      end
  end.

Definition dirname (p : string) : string :=
  match split_last p with
  | Some (EmptyString, _) => "/"
  | Some (d, _) => d
  | None => EmptyString
  end.

Definition basename (p : string) : string :=
  match split_last p with
  | Some (_, b) => b
  | None => p
  end.

Definition join (a b : string) : string :=
  if PyStr.startswith "/" b then b
  else if String.eqb a EmptyString then b
  else if PyStr.endswith a "/" then a +:+ b
  else a +:+ "/" +:+ b.

Definition abspath (p : string) : string :=
  if PyStr.startswith "/" p then p else "/work/" +:+ p.

Fixpoint lookup {A} (k : string) (l : list (string * A)) : option A :=
  match l with
  | [] => None
  | (k', v) :: l' => if String.eqb k k' then Some v else lookup k l'
  end.

Definition dq : string := String (ascii_of_nat 34) EmptyString.

(** The text [{"sources": ["f1.js", "f2.js"]}]. *)
Definition metadata_text : string :=
  "{" +:+ dq +:+ "sources" +:+ dq +:+ ": [" +:+ dq +:+ "f1.js" +:+ dq
      +:+ ", " +:+ dq +:+ "f2.js" +:+ dq +:+ "]}".

Definition metadata_value : PyVal :=
  PyDict [("sources", PyList [PyStr "f1.js"; PyStr "f2.js"])].

Definition files : list (string * string) :=
  [("/fuzz/fuzz-7.js", "print(6 * 7)");
   ("/fuzz/resources-7.js", "meta-7.json" +:+ PyStr.nl);
   ("/fuzz/meta-7.json", metadata_text);
   ("/fuzz/fuzz-8.js", "print(%DebugPrint(8))");
   ("/fuzz/resources-8.js", "meta-8.json" +:+ PyStr.nl);
   ("/fuzz/meta-8.json", "{not json");
   ("/build/d8", EmptyString);
   ("/build/arm/d8", EmptyString);
   ("/build/d8_mock.py", EmptyString)].

(** [json.loads] on the two metadata texts of [files]. *)
Definition loads (text : string) : result PyVal :=
  if String.eqb text metadata_text then Ok metadata_value
  else Raise (Exception "ValueError" "No JSON object could be decoded").

Definition out (text : string) : Output :=
  {| HasTimedOut := false; HasCrashed := false; stdout := text |}.

Definition timed_out (text : string) : Output :=
  {| HasTimedOut := true; HasCrashed := false; stdout := text |}.

Definition crashed (text : string) : Output :=
  {| HasTimedOut := false; HasCrashed := true; stdout := text |}.

(** A d8 that prints [o2] when run with [flag] and [o1] otherwise. *)
Definition d8 (flag : string) (o1 o2 : result Output)
    (args : list string) (cwd : string) (timeout : Z) : result Output :=
  if bool_decide (flag ∈ args) then o2 else o1.

(** A diff like the one of [v8_suppressions]: nothing for equal outputs,
    a text for others. *)
Definition line_diff (text : string) (s1 s2 : string)
  : result (option string) :=
  if String.eqb s1 s2 then Ok None else Ok (Some text).

Definition never (_ : string) : result (option string) := Ok None.

Definition always (bug : string) (_ : string) : result (option string) :=
  Ok (Some bug).

Definition no_suppression : Suppression :=
  {| ignore := never; ignore_by_output1 := never;
     ignore_by_output2 := never; diff := line_diff "line 1 differs" |}.

Definition namespace (config1 config2 d8 testcase : string) : Namespace :=
  {| ns_random_seed := 12345;
     ns_first_arch := "x64"; ns_second_arch := "x64";
     ns_first_config := config1; ns_second_config := config2;
     ns_first_d8 := d8; ns_second_d8 := None;
     ns_testcase := testcase |}.

Definition env (ns : result Namespace) (suppress : Suppression)
    (execute : list string -> string -> Z -> result Output) : Env :=
  {| argparse := ns;
     os_path_exists := fun p => bool_decide (is_Some (lookup p files));
     os_path_isfile := fun p => bool_decide (is_Some (lookup p files));
     os_path_dirname := dirname;
     os_path_basename := basename;
     os_path_join := join;
     os_path_abspath := abspath;
     file_read := fun p =>
       match lookup p files with
       | Some text => Ok text
       | None => Raise (Exception "IOError" "No such file or directory")
       end;
     json_loads := loads;
     get_suppression := fun _ _ _ _ => Ok suppress;
     Execute := execute;
     sys_executable := "/usr/bin/python";
     script_file := "/v8/tools/foozzie/v8_foozzie.py" |}.

Definition usual : result Namespace :=
  Ok (namespace "default" "fullcode" "/build/d8" "/fuzz/fuzz-7.js").

(** The options [parse_args] makes of [usual]. *)
Definition usual_options : Options :=
  {| random_seed := 12345;
     first_arch := "x64"; second_arch := "x64";
     first_config := "default"; second_config := "fullcode";
     first_d8 := "/build/d8"; second_d8 := "/build/d8";
     testcase := "/fuzz/fuzz-7.js";
     meta_data_path := "/fuzz/meta-7.json" |}.

Definition line (text : string) : string := text +:+ PyStr.nl.

(** Both configurations print 42. *)
Definition same_output : Env :=
  env usual no_suppression
    (d8 "--nocrankshaft" (Ok (out (line "42"))) (Ok (out (line "42")))).

(** The two configurations print different lines. *)
Definition different_output : Env :=
  env usual no_suppression
    (d8 "--nocrankshaft" (Ok (out (line "[A]"))) (Ok (out (line "[B]")))).

(** The first run times out, with an output that is suppressed. *)
Definition output1_known_bad : Suppression :=
  {| ignore := never; ignore_by_output1 := always "crbug.com/1";
     ignore_by_output2 := never; diff := line_diff "line 1 differs" |}.

Definition first_times_out : Env :=
  env usual output1_known_bad
    (d8 "--nocrankshaft" (Ok (timed_out "partial")) (Ok (out "42"))).

(** Equal outputs, and the second one is a known bad output. *)
Definition second_suppressed : Env :=
  env usual
    {| ignore := never; ignore_by_output1 := never;
       ignore_by_output2 := always "crbug.com/2";
       diff := line_diff "line 1 differs" |}
    (d8 "--nocrankshaft" (Ok (out "42")) (Ok (out "42"))).

(** A known bad test case whose metadata file is not JSON. *)
Definition known_bad : Suppression :=
  {| ignore := always "crbug.com/3"; ignore_by_output1 := never;
     ignore_by_output2 := never; diff := line_diff "line 1 differs" |}.

Definition known_bad_testcase : Env :=
  env (Ok (namespace "default" "fullcode" "/build/d8" "/fuzz/fuzz-8.js"))
    known_bad
    (d8 "--nocrankshaft" (Ok (out "8")) (Ok (out "8"))).

Definition known_bad_options : Options :=
  {| random_seed := 12345;
     first_arch := "x64"; second_arch := "x64";
     first_config := "default"; second_config := "fullcode";
     first_d8 := "/build/d8"; second_d8 := "/build/d8";
     testcase := "/fuzz/fuzz-8.js";
     meta_data_path := "/fuzz/meta-8.json" |}.

(** The same architecture and the same configuration twice. *)
Definition same_configs : Env :=
  env (Ok (namespace "fullcode" "fullcode" "/build/d8" "/fuzz/fuzz-7.js"))
    no_suppression
    (d8 "--nocrankshaft" (Ok (out "42")) (Ok (out "42"))).

(** Wrong usage: [argparse] exits. *)
Definition wrong_usage : Env :=
  env (Raise SystemExit) no_suppression
    (d8 "--nocrankshaft" (Ok (out "42")) (Ok (out "42"))).

(** A d8 that is a Python script, as in the tests of the script. *)
Definition python_d8 : Env :=
  env (Ok (namespace "default" "fullcode" "/build/d8_mock.py"
             "/fuzz/fuzz-7.js"))
    no_suppression
    (d8 "--nocrankshaft" (Ok (out "42")) (Ok (out "42"))).

(** Suppressions that answer with blanks only. *)
Definition blank_suppression : Env :=
  env usual
    {| ignore := always "  "; ignore_by_output1 := always EmptyString;
       ignore_by_output2 := always (" " +:+ PyStr.nl);
       diff := line_diff "line 1 differs" |}
    (d8 "--nocrankshaft" (Ok (out (line "[A]"))) (Ok (out (line "[B]")))).

End Demo.

(** ** Notions used in the statements *)

(** A suppression answer that names no bug: [None], or a string of white
    space only (the empty one too). *)
Definition blank (x : option string) : bool := PyStr.all_space (or_empty x).

(** The command line of a run, as [run_d8] builds it. *)
Definition run_d8_args (env : Env) (options : Options) (d8 : string)
    (config_flags : list string) : list string :=
  let args := [d8] ++ config_flags ++ PREAMBLE env ++ [testcase options] in
  if PyStr.endswith d8 ".py" then [sys_executable env] ++ args else args.

(** What a suppression check does with the answer of its predicate. *)
Definition bailout_on (answer : result (option string)) : M bool :=
  match answer with
  | Raise e => ([], Raise e)
  | Ok x =>
      if blank x then ([], Ok false)
      else ([Print (FAILURE_HEADER_TEMPLATE "" "" (PyStr.strip (or_empty x)))],
            Ok true)
  end.

(** A suppression answer with blanks read as no answer. *)
Definition unblank (x : option string) : option string :=
  if blank x then None else x.

Definition unblank_answer (a : result (option string))
  : result (option string) :=
  match a with
  | Ok x => Ok (unblank x)
  | Raise e => Raise e
  end.

(** The suppression whose predicates answer [None] where those of [s]
    answer a blank. *)
Definition unblank_suppression (s : Suppression) : Suppression :=
  {| ignore := fun text => unblank_answer (ignore s text);
     ignore_by_output1 := fun out => unblank_answer (ignore_by_output1 s out);
     ignore_by_output2 := fun out => unblank_answer (ignore_by_output2 s out);
     diff := diff s |}.

(** [env] with another [get_suppression]. *)
Definition with_get_suppression
    (f : string -> string -> string -> string -> result Suppression)
    (env : Env) : Env :=
  {| argparse := argparse env;
     os_path_exists := os_path_exists env;
     os_path_isfile := os_path_isfile env;
     os_path_dirname := os_path_dirname env;
     os_path_basename := os_path_basename env;
     os_path_join := os_path_join env;
     os_path_abspath := os_path_abspath env;
     file_read := file_read env;
     json_loads := json_loads env;
     get_suppression := f;
     Execute := Execute env;
     sys_executable := sys_executable env;
     script_file := script_file env |}.

Definition unblank_env (env : Env) : Env :=
  with_get_suppression
    (fun a1 c1 a2 c2 =>
       match get_suppression env a1 c1 a2 c2 with
       | Ok s => Ok (unblank_suppression s)
       | Raise e => Raise e
       end)
    env.

(** [env] with another [json.loads]. *)
Definition with_json_loads (loads : string -> result PyVal) (env : Env) : Env :=
  {| argparse := argparse env;
     os_path_exists := os_path_exists env;
     os_path_isfile := os_path_isfile env;
     os_path_dirname := os_path_dirname env;
     os_path_basename := os_path_basename env;
     os_path_join := os_path_join env;
     os_path_abspath := os_path_abspath env;
     file_read := file_read env;
     json_loads := loads;
     get_suppression := get_suppression env;
     Execute := Execute env;
     sys_executable := sys_executable env;
     script_file := script_file env |}.

(** The lines the script prints for a pass. *)
Definition pass_line (text : string) : Prop :=
  text = "# V8 correctness - pass"
  \/ (exists n, text = "# V8 correctness - T-I-M-E-O-U-T " +:+ PyStr.str n)
  \/ (exists n, text = "# V8 correctness - C-R-A-S-H " +:+ PyStr.str n).

(** The texts the script prints for a failure: the header alone, or the
    full form. *)
Definition failure_report (text : string) : Prop :=
  (exists bug, text = FAILURE_HEADER_TEMPLATE "" "" bug)
  \/ (exists d, text = FAILURE_TEMPLATE d).

(** The command line of a run in the words of the specification: the
    executable, the fixed flags, the seed, the flags of the configuration,
    the preamble and the test case. *)
Definition spec_command (env : Env) (options : Options) (d8 : string)
    (registry_flags : list string) : list string :=
  [d8] ++ FLAGS ++ ["--random-seed"; PyStr.str (random_seed options)]
       ++ registry_flags ++ PREAMBLE env ++ [testcase options].

(** The same, behind the interpreter when the executable is a Python
    script. *)
Definition wrapped_command (env : Env) (options : Options) (d8 : string)
    (registry_flags : list string) : list string :=
  if PyStr.endswith d8 ".py"
  then sys_executable env :: spec_command env options d8 registry_flags
  else spec_command env options d8 registry_flags.

(** The fingerprint in the words of the specification: the first 8 hex
    characters of the hash of each source, joined with commas. *)
Definition short_hash (source : string) : string :=
  PyStr.take 8 (SHA1.hexdigest source).

Definition spec_fingerprint (ids : list string) : string :=
  PyStr.join "," (List.map short_hash ids).

Definition is_hex (c : ascii) : bool :=
  let n := nat_of_ascii c in
  ((48 <=? n)%nat && (n <=? 57)%nat) || ((97 <=? n)%nat && (n <=? 102)%nat).

Fixpoint all_hex (s : string) : bool :=
  match s with
  | EmptyString => true
  | String c s' => is_hex c && all_hex s'
  end.

(** Both configurations ran to a normal end on the test case and none of
    the suppression checks matched, so that the outputs get compared. *)
Record Compared (env : Env) (options : Options) (suppress : Suppression)
    (metadata : PyVal) (flags1 flags2 : list string) (o1 o2 : Output)
  : Prop := {
  compared_options : exists tr0, parse_args env = (tr0, Ok options);
  compared_suppress :
    get_suppression env (first_arch options) (first_config options)
      (second_arch options) (second_config options) = Ok suppress;
  compared_testcase :
    exists text x, file_read env (testcase options) = Ok text
                   /\ ignore suppress text = Ok x /\ blank x = true;
  compared_metadata :
    exists content, file_read env (meta_data_path options) = Ok content
                    /\ json_loads env content = Ok metadata;
  compared_flags1 : CONFIGS !! first_config options = Some flags1;
  compared_flags2 : CONFIGS !! second_config options = Some flags2;
  compared_run1 :
    Execute env (wrapped_command env options (first_d8 options) flags1)
      (os_path_dirname env (testcase options)) TIMEOUT = Ok o1;
  compared_normal1 : exitCategory o1 = Normal;
  compared_output1 :
    exists x, ignore_by_output1 suppress (stdout o1) = Ok x /\ blank x = true;
  compared_run2 :
    Execute env (wrapped_command env options (second_d8 options) flags2)
      (os_path_dirname env (testcase options)) TIMEOUT = Ok o2;
  compared_normal2 : exitCategory o2 = Normal;
  compared_output2 :
    exists x, ignore_by_output2 suppress (stdout o2) = Ok x /\ blank x = true
}.

(** The dict the failure report is filled from. *)
Definition report_fields (options : Options) (fingerprint : string)
    (flags1 flags2 : list string) (o1 o2 : Output) (difference : string)
  : Fields :=
  let label1 := first_arch options +:+ "," +:+ first_config options in
  let label2 := second_arch options +:+ "," +:+ second_config options in
  let common := FLAGS ++ ["--random-seed"; PyStr.str (random_seed options)] in
  {| configs := label1 +:+ ":" +:+ label2;
     sources := fingerprint;
     suppression := "";
     first_config_label := label1;
     second_config_label := label2;
     first_config_flags := PyStr.join " " (common ++ flags1);
     second_config_flags := PyStr.join " " (common ++ flags2);
     first_config_output := stdout o1;
     second_config_output := stdout o2;
     difference := difference |}.

(** ** Texts that hold given parts in a given order *)

(** [in_order parts text]: the parts occur in [text] one after the other,
    without overlap. *)
Fixpoint in_order (parts : list string) (text : string) : Prop :=
  match parts with
  | [] => True
  | p :: parts' =>
      exists before after,
        text = before +:+ p +:+ after /\ in_order parts' after
  end.

(** What follows the first occurrence of [p] in [text]. *)
Fixpoint find_after (p text : string) : option string :=
  if PyStr.startswith p text then Some (PyStr.drop (String.length p) text)
  else
    match text with
    | EmptyString => None
    | String _ text' => find_after p text'
    end.

(** Deciding [in_order], each part at its first occurrence. *)
Fixpoint in_orderb (parts : list string) (text : string) : bool :=
  match parts with
  | [] => true
  | p :: parts' =>
      match find_after p text with
      | Some after => in_orderb parts' after
      | None => false
      end
  end.

(** The parts of the full report. *)
Definition header_fields (d : Fields) : list string :=
  ["# V8 correctness configs: " +:+ configs d +:+ PyStr.nl;
   "# V8 correctness sources: " +:+ sources d +:+ PyStr.nl;
   "# V8 correctness suppression: " +:+ suppression d +:+ PyStr.nl].

Definition check_marker : string := PyStr.nl +:+ "# CHECK" +:+ PyStr.nl.

Definition flag_dumps (d : Fields) : list string :=
  ["# Flags of " +:+ first_config_label d +:+ ":" +:+ PyStr.nl
     +:+ first_config_flags d +:+ PyStr.nl;
   "# Flags of " +:+ second_config_label d +:+ ":" +:+ PyStr.nl
     +:+ second_config_flags d +:+ PyStr.nl].

Definition diff_text (d : Fields) : string :=
  "# Difference:" +:+ PyStr.nl +:+ difference d +:+ PyStr.nl.

Definition output_block (label output : string) : string :=
  "### Start of configuration " +:+ label +:+ ":" +:+ PyStr.nl
    +:+ output +:+ PyStr.nl
    +:+ "### End of configuration " +:+ label +:+ PyStr.nl.

Definition output_blocks (d : Fields) : list string :=
  [output_block (first_config_label d) (first_config_output d);
   output_block (second_config_label d) (second_config_output d)].

(** The order of the parts in the template of the script. *)
Definition template_order (d : Fields) : list string :=
  header_fields d ++ [check_marker] ++ flag_dumps d ++ [diff_text d]
    ++ output_blocks d.

(** The order of the parts in the specification. *)
Definition spec_order (d : Fields) : list string :=
  header_fields d ++ flag_dumps d ++ [check_marker] ++ [diff_text d]
    ++ output_blocks d.

(** The text made of parts, each behind some other text. *)
Definition interleave (items : list (string * string)) (tail : string)
  : string :=
  List.fold_right (fun item rest => fst item +:+ snd item +:+ rest) tail items.

(** A report to try the orders on. *)
Definition sample_fields : Fields :=
  {| configs := "x64,default:x64,fullcode";
     sources := "5aebdceb,430786c4";
     suppression := "";
     first_config_label := "x64,default";
     second_config_label := "x64,fullcode";
     first_config_flags := "--random-seed 12345";
     second_config_flags := "--random-seed 12345 --nocrankshaft";
     first_config_output := "[A]";
     second_config_output := "[B]";
     difference := "line 1 differs" |}.

(** ** What [parse_args] checks *)

(** The companion resources file of the test case. *)
Definition resources_path (env : Env) (ns : Namespace) : string :=
  os_path_join env
    (os_path_dirname env (ns_testcase ns))
    ("resources" +:+ PyStr.drop 4 (os_path_basename env (ns_testcase ns))).

(** [options.second_d8 or options.first_d8] *)
Definition second_d8_or_first (ns : Namespace) : string :=
  if truthy (ns_second_d8 ns) then or_empty (ns_second_d8 ns)
  else ns_first_d8 ns.

(** The options made of a namespace and of the one line of the resources
    file. *)
Definition parsed_options (env : Env) (ns : Namespace) (line : string)
  : Options :=
  {| random_seed := ns_random_seed ns;
     first_arch := ns_first_arch ns;
     second_arch := ns_second_arch ns;
     first_config := ns_first_config ns;
     second_config := ns_second_config ns;
     first_d8 := os_path_abspath env (ns_first_d8 ns);
     second_d8 := os_path_abspath env (second_d8_or_first ns);
     testcase := ns_testcase ns;
     meta_data_path :=
       os_path_join env (os_path_dirname env (resources_path env ns)) line |}.

(** The comparison asked for is a sane one. *)
Record Sane (ns : Namespace) : Prop := {
  sane_difference :
    ns_first_arch ns <> ns_second_arch ns
    \/ ns_first_config ns <> ns_second_config ns;
  sane_first_arch : ns_first_arch ns ∈ SUPPORTED_ARCHS;
  sane_second_arch : ns_second_arch ns ∈ SUPPORTED_ARCHS;
  sane_first_config : is_Some (CONFIGS !! ns_first_config ns);
  sane_second_config : is_Some (CONFIGS !! ns_second_config ns)
}.

(** The test case is there, with its resources file. *)
Record Found_testcase (env : Env) (ns : Namespace) : Prop := {
  found_testcase :
    os_path_exists env (ns_testcase ns)
    && os_path_isfile env (ns_testcase ns) = true;
  found_resources : os_path_exists env (resources_path env ns) = true
}.

(** The resources file names the metadata file on its one line, and the
    metadata file and the executables are there. *)
Record Found_rest (env : Env) (ns : Namespace) (line : string) : Prop := {
  found_line :
    exists content,
      file_read env (resources_path env ns) = Ok content
      /\ PyStr.splitlines (PyStr.strip content) = [line];
  found_metadata :
    os_path_exists env
      (os_path_join env (os_path_dirname env (resources_path env ns)) line)
    = true;
  found_first_d8 :
    os_path_exists env (os_path_abspath env (ns_first_d8 ns)) = true;
  found_second_d8 :
    os_path_exists env (os_path_abspath env (second_d8_or_first ns)) = true
}.

(** The events of the trace that are subprocess runs or prints. *)
Definition run_or_print (e : Event) : Prop :=
  match e with
  | Exec _ _ _ _ | Print _ => True
  | _ => False
  end.

(** ** More concrete environments *)

Module Cases.

Definition two_lines : string :=
  "meta-5.json" +:+ PyStr.nl +:+ "meta-7.json" +:+ PyStr.nl.

Definition files : list (string * string) :=
  [("/fuzz/fuzz-5.js", "print(5)");
   ("/fuzz/resources-5.js", two_lines);
   ("/fuzz/fuzz-6.js", "print(6)");
   ("/fuzz/resources-6.js", " " +:+ PyStr.nl)]
  ++ Demo.files.

(** [Demo.env] on the files above. *)
Definition env (ns : result Namespace) (suppress : Suppression)
    (execute : list string -> string -> Z -> result Output) : Env :=
  {| argparse := ns;
     os_path_exists := fun p => bool_decide (is_Some (Demo.lookup p files));
     os_path_isfile := fun p => bool_decide (is_Some (Demo.lookup p files));
     os_path_dirname := Demo.dirname;
     os_path_basename := Demo.basename;
     os_path_join := Demo.join;
     os_path_abspath := Demo.abspath;
     file_read := fun p =>
       match Demo.lookup p files with
       | Some text => Ok text
       | None => Raise (Exception "IOError" "No such file or directory")
       end;
     json_loads := Demo.loads;
     get_suppression := fun _ _ _ _ => Ok suppress;
     Execute := execute;
     sys_executable := "/usr/bin/python";
     script_file := "/v8/tools/foozzie/v8_foozzie.py" |}.

Definition d8 : list string -> string -> Z -> result Output :=
  Demo.d8 "--nocrankshaft" (Ok (Demo.out (Demo.line "42")))
    (Ok (Demo.out (Demo.line "42"))).

Definition namespace (testcase : string) : Namespace :=
  Demo.namespace "default" "fullcode" "/build/d8" testcase.


(** A resources file of two lines, and one of white space. *)
Definition two_line_resources : Env :=
  env (Ok (namespace "/fuzz/fuzz-5.js")) Demo.no_suppression d8.

Definition blank_resources : Env :=
  env (Ok (namespace "/fuzz/fuzz-6.js")) Demo.no_suppression d8.

(** Two architectures and no second executable. *)
Definition arm_x64 : Namespace :=
  {| ns_random_seed := 12345;
     ns_first_arch := "arm"; ns_second_arch := "x64";
     ns_first_config := "default"; ns_second_config := "default";
     ns_first_d8 := "/build/arm/d8"; ns_second_d8 := None;
     ns_testcase := "/fuzz/fuzz-7.js" |}.

Definition two_architectures : Env :=
  env (Ok arm_x64) Demo.no_suppression d8.

(** The same with a second executable, given by a relative path. *)
Definition arm_x64_two : Namespace :=
  {| ns_random_seed := 12345;
     ns_first_arch := "arm"; ns_second_arch := "x64";
     ns_first_config := "default"; ns_second_config := "default";
     ns_first_d8 := "/build/arm/d8"; ns_second_d8 := Some "/build/d8";
     ns_testcase := "/fuzz/fuzz-7.js" |}.

Definition two_executables : Env :=
  env (Ok arm_x64_two) Demo.no_suppression d8.

(** The first output is a known bad one. *)
Definition first_suppressed : Env :=
  env (Ok (namespace "/fuzz/fuzz-7.js")) Demo.output1_known_bad d8.

(** The second run cannot be started. *)
Definition second_fails : Env :=
  env (Ok (namespace "/fuzz/fuzz-7.js")) Demo.no_suppression
    (Demo.d8 "--nocrankshaft" (Ok (Demo.out (Demo.line "42")))
       (Raise (Exception "OSError" "Exec format error"))).

(** A metadata file that is not JSON, for a test case that is not a known
    bad one. *)
Definition not_json : Env :=
  env (Ok (namespace "/fuzz/fuzz-8.js")) Demo.no_suppression d8.

(** Different outputs, and a metadata without sources. *)
Definition no_sources : Env :=
  with_json_loads (fun _ => Ok (PyDict [("seed", PyInt 7)]))
    Demo.different_output.

(** Different outputs, and a source whose name is not ASCII: [u'\xe9.js']. *)
Definition e_acute_js : string := String (ascii_of_nat 233) ".js".

Definition non_ascii_source : Env :=
  with_json_loads
    (fun _ => Ok (PyDict [("sources",
                           PyList [PyStr "f1.js"; PyStr e_acute_js])]))
    Demo.different_output.

End Cases.
(** ** Basic facts *)

Lemma bind_inv {A B} (m : M A) (k : A -> M B) tr r :
  bind m k = (tr, r) ->
  (exists e, m = (tr, Raise e) /\ r = Raise e)
  \/ (exists tr1 a tr2, m = (tr1, Ok a) /\ k a = (tr2, r) /\ tr = tr1 ++ tr2).
Proof.
  unfold bind. destruct m as [tr1 [a|e]].
  - destruct (k a) as [tr2 r2] eqn:Hk. intros [= <- <-].
    right. exists tr1, a, tr2. auto.
  - intros [= <- <-]. left. exists e. auto.
Qed.

Lemma bind_ext {A B} (m : M A) (k k' : A -> M B) :
  (forall a, k a = k' a) -> bind m k = bind m k'.
Proof. intros H. unfold bind. destruct m as [tr [a|e]]; [now rewrite H | easy]. Qed.

Lemma runs_app tr1 tr2 : runs (tr1 ++ tr2) = runs tr1 ++ runs tr2.
Proof. induction tr1 as [|[] tr1 IH]; simpl; now rewrite ?IH. Qed.

Lemma commands_app tr1 tr2 : commands (tr1 ++ tr2) = commands tr1 ++ commands tr2.
Proof. induction tr1 as [|[] tr1 IH]; simpl; now rewrite ?IH. Qed.

Lemma printed_app tr1 tr2 : printed (tr1 ++ tr2) = printed tr1 ++ printed tr2.
Proof. induction tr1 as [|[] tr1 IH]; simpl; now rewrite ?IH. Qed.

Lemma json_loaded_app tr1 tr2 :
  json_loaded (tr1 ++ tr2) = json_loaded tr1 ++ json_loaded tr2.
Proof. induction tr1 as [|[] tr1 IH]; simpl; now rewrite ?IH. Qed.

(** ** Python strings *)

Lemma rstrip_all_space s : PyStr.all_space s = true -> PyStr.rstrip s = EmptyString.
Proof.
  induction s as [|c s IH]; simpl; [easy|].
  intros [Hc Hs]%andb_prop. now rewrite (IH Hs), Hc.
Qed.

Lemma rstrip_empty s : PyStr.rstrip s = EmptyString -> PyStr.all_space s = true.
Proof.
  induction s as [|c s IH]; simpl; [easy|].
  destruct (PyStr.rstrip s); [|discriminate].
  destruct (PyStr.isspace c); [|discriminate]. intros _. now rewrite IH.
Qed.

Lemma lstrip_all_space s :
  PyStr.all_space (PyStr.lstrip s) = PyStr.all_space s.
Proof.
  induction s as [|c s IH]; simpl; [easy|].
  destruct (PyStr.isspace c) eqn:Hc; simpl; [easy | now rewrite Hc].
Qed.

(** A string strips to nothing exactly when it is all white space. *)
Lemma truthy_strip s :
  PyStr.truthy (PyStr.strip s) = negb (PyStr.all_space s).
Proof.
  unfold PyStr.strip. rewrite <- (lstrip_all_space s).
  destruct (PyStr.all_space (PyStr.lstrip s)) eqn:H.
  - now rewrite rstrip_all_space.
  - destruct (PyStr.rstrip (PyStr.lstrip s)) eqn:Hr; [|easy].
    apply rstrip_empty in Hr. congruence.
Qed.

(** ** The steps of the script, one by one *)

Lemma lift_inv {A} (x : result A) tr r : lift x = (tr, r) -> tr = [] /\ x = r.
Proof. now intros [= <- <-]. Qed.

Lemma ret_inv {A} (a : A) tr r : ret a = (tr, r) -> tr = [] /\ r = Ok a.
Proof. now intros [= <- <-]. Qed.

Lemma raise_inv {A} e tr (r : result A) :
  raise e = (tr, r) -> tr = [] /\ r = Raise e.
Proof. now intros [= <- <-]. Qed.

Lemma emit_inv e tr r : emit e = (tr, r) -> tr = [e] /\ r = Ok tt.
Proof. now intros [= <- <-]. Qed.

Lemma print_inv text tr r : print text = (tr, r) -> tr = [Print text] /\ r = Ok tt.
Proof. now intros [= <- <-]. Qed.

Lemma assert_inv c msg tr r :
  assert c msg = (tr, r) ->
  tr = [] /\ (c = true /\ r = Ok tt
              \/ c = false /\ r = Raise (Exception "AssertionError" msg)).
Proof. destruct c; intros [= <- <-]; auto. Qed.

Lemma open_read_eq env path :
  open_read env path = ([Open path], file_read env path).
Proof. unfold open_read, bind, emit, lift. now destruct (file_read env path). Qed.

Lemma config_flags_inv name tr r :
  config_flags name = (tr, r) ->
  tr = [] /\ (r = Raise (Exception "KeyError" ("'" +:+ name +:+ "'"))
                /\ CONFIGS !! name = None
              \/ exists flags, r = Ok flags /\ CONFIGS !! name = Some flags).
Proof.
  unfold config_flags. destruct (CONFIGS !! name) as [flags|].
  - intros [= <- <-]. eauto.
  - intros [= <- <-]. eauto.
Qed.

Lemma run_d8_eq env options d8 flags :
  run_d8 env options d8 flags =
  let args := run_d8_args env options d8 flags in
  let cwd := os_path_dirname env (testcase options) in
  ([Exec args cwd TIMEOUT (Execute env args cwd TIMEOUT)],
   Execute env args cwd TIMEOUT).
Proof.
  unfold run_d8, run_d8_args, bind, emit, lift. cbv zeta.
  now destruct (Execute env _ _ _).
Qed.

Lemma run_d8_inv env options d8 flags tr r :
  run_d8 env options d8 flags = (tr, r) ->
  tr = [Exec (run_d8_args env options d8 flags)
             (os_path_dirname env (testcase options)) TIMEOUT r]
  /\ Execute env (run_d8_args env options d8 flags)
               (os_path_dirname env (testcase options)) TIMEOUT = r.
Proof. rewrite run_d8_eq. cbv zeta. now intros [= <- <-]. Qed.

Lemma normal_inv o :
  exitCategory o = Normal -> HasTimedOut o = false /\ HasCrashed o = false.
Proof.
  unfold exitCategory. destruct (HasTimedOut o), (HasCrashed o);
    intros H; first [discriminate H | now split].
Qed.

Lemma pass_bailout_inv o n tr r :
  pass_bailout o n = (tr, r) ->
  exitCategory o = TimedOut
    /\ tr = [Print ("# V8 correctness - T-I-M-E-O-U-T " +:+ PyStr.str n)]
    /\ r = Ok true
  \/ exitCategory o = Crashed
    /\ tr = [Print ("# V8 correctness - C-R-A-S-H " +:+ PyStr.str n)]
    /\ r = Ok true
  \/ exitCategory o = Normal /\ tr = [] /\ r = Ok false.
Proof.
  unfold pass_bailout, exitCategory.
  destruct (HasTimedOut o); [|destruct (HasCrashed o)];
    intros [= <- <-]; auto.
Qed.

Lemma fail_bailout_eq o f : fail_bailout o f = bailout_on (f (stdout o)).
Proof.
  unfold fail_bailout, bailout_on, bind, lift, blank.
  destruct (f (stdout o)) as [x|e]; [|easy].
  rewrite truthy_strip. now destruct (PyStr.all_space (or_empty x)).
Qed.

Lemma test_pattern_bailout_eq env testcase f :
  test_pattern_bailout env testcase f =
  match file_read env testcase with
  | Ok text => let '(tr, r) := bailout_on (f text) in (Open testcase :: tr, r)
  | Raise e => ([Open testcase], Raise e)
  end.
Proof.
  unfold test_pattern_bailout. rewrite open_read_eq.
  unfold bailout_on, bind, lift, blank.
  destruct (file_read env testcase) as [text|e]; [|easy].
  destruct (f text) as [x|e]; [|easy].
  rewrite truthy_strip. now destruct (PyStr.all_space (or_empty x)).
Qed.

Lemma bailout_on_inv answer tr r :
  bailout_on answer = (tr, r) ->
  (exists e, answer = Raise e /\ tr = [] /\ r = Raise e)
  \/ (exists x, answer = Ok x /\ blank x = true /\ tr = [] /\ r = Ok false)
  \/ (exists x, answer = Ok x /\ blank x = false
        /\ tr = [Print (FAILURE_HEADER_TEMPLATE "" "" (PyStr.strip (or_empty x)))]
        /\ r = Ok true).
Proof.
  unfold bailout_on. destruct answer as [x|e].
  - destruct (blank x) eqn:Hb; intros H; injection H as <- <-.
    + right. left. now exists x.
    + right. right. now exists x.
  - intros H; injection H as <- <-. left. now exists e.
Qed.

(** Going through a computation bind by bind. *)
Ltac settle H :=
  lazymatch type of H with
  | Ok _ = Ok _ => injection H as H; try subst
  | Raise _ = Raise _ => injection H as H; try subst
  | Ok _ = Raise _ => discriminate H
  | Raise _ = Ok _ => discriminate H
  | ?x = ?y => first [is_var x; subst x | is_var y; subst y | idtac]
  end.

Ltac settle_pair H :=
  lazymatch type of H with
  | (_, _) = (_, _) =>
      let H' := fresh in injection H as H' H; settle H'; settle H
  | _ => settle H
  end.

Ltac digest H :=
  lazymatch type of H with
  | (if ?b then _ else _) = _ => destruct b eqn:?; digest H
  | lift _ = _ => apply lift_inv in H; destruct H as [-> H]
  | ret _ = _ => apply ret_inv in H; destruct H as [-> H]
  | raise _ = _ => apply raise_inv in H; destruct H as [-> H]
  | emit _ = _ => apply emit_inv in H; destruct H as [-> H]
  | print _ = _ => apply print_inv in H; destruct H as [-> H]
  | assert _ _ = _ =>
      apply assert_inv in H; destruct H as [-> [[? H] | [? H]]]
  | open_read _ _ = _ => rewrite open_read_eq in H; injection H as <- H
  | run_d8 _ _ _ _ = _ => apply run_d8_inv in H; destruct H as [-> H]
  | config_flags _ = _ =>
      apply config_flags_inv in H; destruct H as [-> [[H ?] | (? & H & ?)]]
  | pass_bailout _ _ = _ =>
      apply pass_bailout_inv in H;
      destruct H as [(? & -> & H) | [(? & -> & H) | (? & -> & H)]]
  | fail_bailout _ _ = _ =>
      rewrite fail_bailout_eq in H; apply bailout_on_inv in H;
      destruct H as [(? & ? & -> & H) | [(? & ? & ? & -> & H) | (? & ? & ? & -> & H)]]
  | _ => idtac
  end.

(** One bind of a computation: either its first part raises, or it
    returns and the rest goes on; [dig] reads what the first part did. *)
Ltac step_with dig H :=
  let Hm := fresh "Hm" in
  let Hr := fresh "Hr" in
  lazymatch type of H with
  | (if ?b then _ else _) = _ => destruct b eqn:?
  | _ =>
      apply bind_inv in H;
      destruct H as [(? & Hm & Hr) | (? & ? & ? & Hm & H & Hr)];
      settle Hr; dig Hm; settle_pair Hm; try (cbv beta iota in H)
  end.

Ltac step H := step_with ltac:(fun Hm => digest Hm) H.

Lemma parse_args_trace env tr r :
  parse_args env = (tr, r) -> tr = [] \/ exists path, tr = [Open path].
Proof.
  unfold parse_args. intros H.
  repeat (step H; simpl; eauto).
  all: digest H; settle H; simpl; eauto.
Qed.

(** The options [parse_args] returns passed its checks. *)
Lemma parse_args_ok env tr options :
  parse_args env = (tr, Ok options) ->
  exists ns,
    argparse env = Ok ns
    /\ random_seed options = ns_random_seed ns
    /\ first_arch options = ns_first_arch ns
    /\ second_arch options = ns_second_arch ns
    /\ first_config options = ns_first_config ns
    /\ second_config options = ns_second_config ns
    /\ testcase options = ns_testcase ns
    /\ (ns_first_arch ns <> ns_second_arch ns
        \/ ns_first_config ns <> ns_second_config ns)
    /\ ns_first_arch ns ∈ SUPPORTED_ARCHS
    /\ ns_second_arch ns ∈ SUPPORTED_ARCHS
    /\ is_Some (CONFIGS !! ns_first_config ns)
    /\ is_Some (CONFIGS !! ns_second_config ns).
Proof.
  unfold parse_args. intros H.
  repeat step H.
  all: digest H; settle H.
  all: eexists; (split; [eassumption|]); cbn.
  all: repeat match goal with
         | H : bool_decide _ = true |- _ => apply bool_decide_eq_true in H
         end.
  all: repeat split; try assumption.
  all: match goal with
       | H : _ || _ = true |- _ => apply orb_prop in H; destruct H as [H|H]
       end.
  all: try (left; intros E; rewrite E, String.eqb_refl in *; discriminate).
  all: right; intros E; rewrite E, String.eqb_refl in *; discriminate.
Qed.

Lemma test_pattern_bailout_inv env testcase f tr r :
  test_pattern_bailout env testcase f = (tr, r) ->
  (exists e, file_read env testcase = Raise e
             /\ tr = [Open testcase] /\ r = Raise e)
  \/ (exists text, file_read env testcase = Ok text /\
        ((exists e, f text = Raise e /\ tr = [Open testcase] /\ r = Raise e)
         \/ (exists x, f text = Ok x /\ blank x = true
               /\ tr = [Open testcase] /\ r = Ok false)
         \/ (exists x, f text = Ok x /\ blank x = false
               /\ tr = [Open testcase;
                        Print (FAILURE_HEADER_TEMPLATE "" ""
                                 (PyStr.strip (or_empty x)))]
               /\ r = Ok true))).
Proof.
  rewrite test_pattern_bailout_eq.
  destruct (file_read env testcase) as [text|e].
  - destruct (bailout_on (f text)) as [tr' r'] eqn:Hb.
    intros H; injection H as <- <-. right. exists text. split; [easy|].
    apply bailout_on_inv in Hb.
    destruct Hb as [(e & ? & -> & ->)
                   | [(x & ? & ? & -> & ->) | (x & ? & ? & -> & ->)]].
    + left. now exists e.
    + right. left. now exists x.
    + right. right. now exists x.
  - intros H; injection H as <- <-. left. now exists e.
Qed.

Lemma parse_args_quiet env tr r :
  parse_args env = (tr, r) ->
  runs tr = [] /\ commands tr = [] /\ printed tr = [] /\ json_loaded tr = [].
Proof.
  intros [-> | [path ->]]%parse_args_trace; auto.
Qed.

(** Going through [main]: the steps above, then the two steps that keep
    their trace as it is. *)
Ltac digest_main H :=
  lazymatch type of H with
  | parse_args _ = _ =>
      pose proof (parse_args_quiet _ _ _ H) as (? & ? & ? & ?)
  | test_pattern_bailout _ _ _ = _ =>
      apply test_pattern_bailout_inv in H;
      destruct H as [(? & ? & -> & H)
                    | (? & ? & [(? & ? & -> & H)
                               | [(? & ? & ? & -> & H) | (? & ? & ? & -> & H)]])]
  | _ => digest H
  end.

Ltac step_main H := step_with ltac:(fun Hm => digest_main Hm) H.

Ltac run_main H :=
  unfold main in H; repeat step_main H; try (digest H; settle H).

Ltac traces :=
  rewrite ?runs_app, ?commands_app, ?printed_app, ?json_loaded_app in *;
  cbn [runs commands printed json_loaded app] in *;
  repeat match goal with
         | H : runs ?t = [] |- _ => rewrite !H in *
         | H : commands ?t = [] |- _ => rewrite !H in *
         | H : printed ?t = [] |- _ => rewrite !H in *
         | H : json_loaded ?t = [] |- _ => rewrite !H in *
         end;
  cbn [app] in *.

(** ** Parts of a text *)

Lemma append_cons x (a b : string) : String x a +:+ b = String x (a +:+ b).
Proof. reflexivity. Qed.

Lemma append_empty_l (a : string) : EmptyString +:+ a = a.
Proof. reflexivity. Qed.

Lemma append_assoc (a b c : string) : (a +:+ b) +:+ c = a +:+ b +:+ c.
Proof.
  induction a as [|x a IH]; [reflexivity|].
  now rewrite !append_cons, IH.
Qed.

Lemma append_empty_r (a : string) : a +:+ EmptyString = a.
Proof.
  induction a as [|x a IH]; [reflexivity|]. now rewrite append_cons, IH.
Qed.

Lemma append_length (a b : string) :
  String.length (a +:+ b) = (String.length a + String.length b)%nat.
Proof.
  induction a as [|x a IH]; [reflexivity|].
  rewrite append_cons. simpl. now rewrite IH.
Qed.

Lemma startswith_append p s : PyStr.startswith p (p +:+ s) = true.
Proof.
  induction p as [|x p IH]; [reflexivity|].
  rewrite append_cons. simpl. now rewrite Ascii.eqb_refl, IH.
Qed.

Lemma drop_append p s : PyStr.drop (String.length p) (p +:+ s) = s.
Proof.
  induction p as [|x p IH]; [now destruct s|].
  rewrite append_cons. exact IH.
Qed.

Lemma startswith_drop p s :
  PyStr.startswith p s = true -> s = p +:+ PyStr.drop (String.length p) s.
Proof.
  revert s. induction p as [|x p IH]; intros s; simpl.
  - now destruct s.
  - destruct s as [|y s]; [discriminate|].
    intros [Hxy Hp]%andb_prop. apply Ascii.eqb_eq in Hxy. subst y.
    rewrite append_cons. f_equal. now apply IH.
Qed.

Lemma drop_append_le n a b :
  (n <= String.length a)%nat ->
  PyStr.drop n (a +:+ b) = PyStr.drop n a +:+ b.
Proof.
  revert a. induction n as [|n IH]; intros a Hn.
  - reflexivity.
  - destruct a as [|x a]; simpl in Hn; [lia|].
    rewrite append_cons. simpl. apply IH. lia.
Qed.

Lemma find_after_unfold p text :
  find_after p text =
  if PyStr.startswith p text then Some (PyStr.drop (String.length p) text)
  else match text with
       | EmptyString => None
       | String _ text' => find_after p text'
       end.
Proof. now destruct text. Qed.

Lemma find_after_sound p text after :
  find_after p text = Some after ->
  exists before, text = before +:+ p +:+ after.
Proof.
  induction text as [|x text IH]; rewrite find_after_unfold.
  - destruct (PyStr.startswith p "") eqn:Hs; [|discriminate].
    intros [= <-]. exists EmptyString. now apply startswith_drop.
  - destruct (PyStr.startswith p (String x text)) eqn:Hs.
    + intros [= <-]. exists EmptyString. now apply startswith_drop.
    + intros [before ->]%IH. now exists (String x before).
Qed.

(** The first occurrence of [p] ends no later than any other. *)
Lemma find_after_first p before after :
  exists skipped,
    find_after p (before +:+ p +:+ after) = Some (skipped +:+ after).
Proof.
  induction before as [|x before IH]; rewrite find_after_unfold.
  - rewrite !append_empty_l, startswith_append, drop_append.
    now exists EmptyString.
  - destruct (PyStr.startswith p _) eqn:Hs.
    + exists (PyStr.drop (String.length p) (String x before +:+ p)).
      f_equal. rewrite <- drop_append_le by (rewrite append_length; lia).
      f_equal. now rewrite append_assoc.
    + exact IH.
Qed.

Lemma in_order_skip parts skipped text :
  in_order parts text -> in_order parts (skipped +:+ text).
Proof.
  destruct parts as [|p parts]; simpl; [trivial|].
  intros (before & after & -> & H). exists (skipped +:+ before), after.
  now rewrite append_assoc.
Qed.

Lemma in_order_cons p parts before after :
  in_order parts after -> in_order (p :: parts) (before +:+ p +:+ after).
Proof. intros H. now exists before, after. Qed.

Lemma in_orderb_spec parts text :
  in_orderb parts text = true <-> in_order parts text.
Proof.
  revert text. induction parts as [|p parts IH]; intros text; simpl.
  - easy.
  - split.
    + destruct (find_after p text) as [after|] eqn:Hf; [|discriminate].
      intros H%IH. destruct (find_after_sound _ _ _ Hf) as [before ->].
      now exists before, after.
    + intros (before & after & -> & H).
      destruct (find_after_first p before after) as [skipped ->].
      apply IH. now apply in_order_skip.
Qed.

(** ** The verdict pipeline *)

Lemma run_d8_args_spec env options d8 flags :
  run_d8_args env options d8
    ((FLAGS ++ ["--random-seed"; PyStr.str (random_seed options)]) ++ flags)
  = wrapped_command env options d8 flags.
Proof.
  unfold run_d8_args, wrapped_command, spec_command.
  now rewrite <- !app_assoc.
Qed.

(** What [main] does when the two outputs get compared. *)
Lemma main_compared env options suppress metadata flags1 flags2 o1 o2 :
  Compared env options suppress metadata flags1 flags2 o1 o2 ->
  exists tr1,
    runs tr1 = [Ok o1; Ok o2] /\ printed tr1 = [] /\
    main env =
    match diff suppress (stdout o1) (stdout o2) with
    | Raise e => (tr1, Raise e)
    | Ok x =>
        if truthy x then
          match sources_fingerprint metadata with
          | Ok fingerprint =>
              (tr1 ++ [Print (FAILURE_TEMPLATE
                                (report_fields options fingerprint flags1
                                   flags2 o1 o2 (or_empty x)))],
               Ok RETURN_FAIL)
          | Raise e => (tr1, Raise e)
          end
        else (tr1 ++ [Print "# V8 correctness - pass"], Ok RETURN_PASS)
    end.
Proof.
  intros [[tr0 Hp] Hs (text & x & Ht & Hi & Hb) (content & Hc & Hj)
          Hf1 Hf2 Hr1 Hn1 (x1 & Hi1 & Hb1) Hr2 Hn2 (x2 & Hi2 & Hb2)].
  exists (tr0 ++ [Open (testcase options); Open (meta_data_path options);
                  JsonLoad (meta_data_path options);
                  Exec (wrapped_command env options (first_d8 options) flags1)
                       (os_path_dirname env (testcase options)) TIMEOUT (Ok o1);
                  Exec (wrapped_command env options (second_d8 options) flags2)
                       (os_path_dirname env (testcase options)) TIMEOUT (Ok o2)]).
  pose proof (parse_args_quiet _ _ _ Hp) as (Hq1 & Hq2 & Hq3 & Hq4).
  rewrite runs_app, printed_app, Hq1, Hq3. split; [easy|]. split; [easy|].
  destruct (normal_inv _ Hn1) as [Ht1 Hc1].
  destruct (normal_inv _ Hn2) as [Ht2 Hc2].
  unfold main. rewrite Hp. cbn [bind]. unfold lift at 1. rewrite Hs.
  cbn [bind].
  rewrite test_pattern_bailout_eq, Ht, Hi. unfold bailout_on. rewrite Hb.
  cbn [bind]. rewrite open_read_eq, Hc. cbn [bind emit lift]. rewrite Hj.
  unfold config_flags. rewrite Hf1, Hf2. cbn [bind ret].
  rewrite !run_d8_eq, !run_d8_args_spec. cbv zeta. rewrite Hr1. cbn [bind].
  unfold pass_bailout at 1. rewrite Ht1, Hc1. cbn [bind ret].
  rewrite fail_bailout_eq, Hi1. unfold bailout_on at 1. rewrite Hb1.
  cbn [bind]. rewrite Hr2. cbn [bind].
  unfold pass_bailout. rewrite Ht2, Hc2. cbn [bind ret].
  rewrite fail_bailout_eq, Hi2. unfold bailout_on. rewrite Hb2. cbn [bind].
  unfold lift.
  destruct (diff suppress (stdout o1) (stdout o2)) as [x'|e];
    cbn [bind app]; [|reflexivity].
  destruct (truthy x'); cbn [bind print emit ret app].
  2: now rewrite <- (app_assoc tr0).
  destruct (sources_fingerprint metadata) as [fingerprint|e];
    cbn [bind app]; [|reflexivity].
  now rewrite <- (app_assoc tr0).
Qed.

Lemma test_pattern_bailout_quiet env testcase f tr r :
  test_pattern_bailout env testcase f = (tr, r) ->
  runs tr = [] /\ commands tr = [] /\ json_loaded tr = [].
Proof.
  intros H. apply test_pattern_bailout_inv in H.
  destruct H as [(? & ? & -> & _)
                | (? & ? & [(? & ? & -> & _)
                           | [(? & ? & ? & -> & _) | (? & ? & ? & -> & _)]])];
    auto.
Qed.

Lemma main_ok_exit env tr v : main env = (tr, Ok v) -> __main__ env = (tr, v).
Proof. unfold __main__. now intros ->. Qed.

(** What [main] does when the test case is a known bad one. *)
Lemma main_pre_run_bailout env tr0 options suppress tr1 :
  parse_args env = (tr0, Ok options) ->
  get_suppression env (first_arch options) (first_config options)
    (second_arch options) (second_config options) = Ok suppress ->
  test_pattern_bailout env (testcase options) (ignore suppress)
    = (tr1, Ok true) ->
  main env = (tr0 ++ tr1, Ok RETURN_FAIL).
Proof.
  intros Hp Hs Ht. unfold main. rewrite Hp. cbn [bind].
  unfold lift at 1. rewrite Hs. cbn [bind]. rewrite Ht. cbn [bind ret app].
  now rewrite app_nil_r.
Qed.

(** C3.  When the text of the test case matches the pre-run suppression
    predicate (the predicate names a bug, a string that is not blank),
    [main] returns [RETURN_FAIL] at once, having printed the header-only
    report with that bug as the suppression, and the trace holds no
    subprocess run. *)
Theorem pre_run_suppression_fails env tr0 options suppress text x :
  parse_args env = (tr0, Ok options) ->
  get_suppression env (first_arch options) (first_config options)
    (second_arch options) (second_config options) = Ok suppress ->
  file_read env (testcase options) = Ok text ->
  ignore suppress text = Ok x ->
  blank x = false ->
  let tr := tr0 ++ [Open (testcase options);
                    Print (FAILURE_HEADER_TEMPLATE "" ""
                             (PyStr.strip (or_empty x)))] in
  main env = (tr, Ok RETURN_FAIL)
  /\ __main__ env = (tr, 2)
  /\ runs tr = [] /\ commands tr = [].
Proof.
  intros Hp Hs Ht Hi Hb tr.
  assert (main env = (tr, Ok RETURN_FAIL)) as Hmain.
  { apply (main_pre_run_bailout _ _ _ _ _ Hp Hs).
    rewrite test_pattern_bailout_eq, Ht, Hi. unfold bailout_on.
    now rewrite Hb. }
  destruct (parse_args_quiet _ _ _ Hp) as (Hr & Hc & _).
  repeat split; [exact Hmain | exact (main_ok_exit _ _ _ Hmain) | |].
  - subst tr. now rewrite runs_app, Hr.
  - subst tr. now rewrite commands_app, Hc.
Qed.

(** C10.  [json.load] is called on the metadata file only when the pre-run
    suppression check has returned false.  When the check returns true,
    [main] returns [RETURN_FAIL] with the trace of the check alone: the
    metadata is not loaded, whatever [json.loads] would make of it. *)
Theorem metadata_loaded_after_pre_run_check
    env tr0 options suppress tr1 res tr r :
  parse_args env = (tr0, Ok options) ->
  get_suppression env (first_arch options) (first_config options)
    (second_arch options) (second_config options) = Ok suppress ->
  test_pattern_bailout env (testcase options) (ignore suppress) = (tr1, res) ->
  main env = (tr, r) ->
  (json_loaded tr <> [] -> res = Ok false)
  /\ (res = Ok true ->
      r = Ok RETURN_FAIL /\ tr = tr0 ++ tr1
      /\ json_loaded tr = [] /\ runs tr = []
      /\ forall loads, main (with_json_loads loads env) = (tr, r)).
Proof.
  intros Hp Hs Ht Hmain.
  destruct (parse_args_quiet _ _ _ Hp) as (Hr0 & _ & _ & Hj0).
  destruct (test_pattern_bailout_quiet _ _ _ _ _ Ht) as (Hr1 & _ & Hj1).
  destruct res as [[|]|e].
  - pose proof (main_pre_run_bailout _ _ _ _ _ Hp Hs Ht) as Hb.
    rewrite Hb in Hmain. injection Hmain as <- <-.
    rewrite json_loaded_app, runs_app, Hj0, Hj1, Hr0, Hr1.
    split; [easy|]. intros _. repeat split.
    intros loads.
    exact (main_pre_run_bailout (with_json_loads loads env) _ _ _ _ Hp Hs Ht).
  - split; [easy | discriminate].
  - split; [|discriminate]. intros Hj. exfalso. apply Hj.
    revert Hmain. unfold main. rewrite Hp. cbn [bind].
    unfold lift at 1. rewrite Hs. cbn [bind]. rewrite Ht. cbn [bind].
    intros H; injection H as <- _.
    now rewrite json_loaded_app, Hj0, Hj1.
Qed.

(** C1.  In every execution where a run timed out or crashed, that run
    is the last subprocess run, [main] returns [RETURN_PASS] and the
    script exits with 0.  For the first run ([n = 0]) the trace holds one
    run only: the second configuration is never launched.  The one line
    printed is the timeout or crash marker of that step: the output-based
    suppression check of that side is not reached, whatever its predicate
    would answer. *)
Theorem timeout_or_crash_passes env tr r n o :
  main env = (tr, r) ->
  runs tr !! n = Some (Ok o) ->
  exitCategory o <> Normal ->
  r = Ok RETURN_PASS
  /\ __main__ env = (tr, 0)
  /\ length (runs tr) = S n
  /\ printed tr =
     [(if HasTimedOut o then "# V8 correctness - T-I-M-E-O-U-T "
       else "# V8 correctness - C-R-A-S-H ") +:+ PyStr.str (Z.of_nat (S n))].
Proof.
  intros Hmain Hrun Hcat. pose proof Hmain as H. run_main H.
  all: traces.
  all: destruct n as [|[|n]]; try discriminate Hrun.
  all: injection Hrun as ->.
  all: try congruence.
  all: split; [reflexivity|].
  all: split; [exact (main_ok_exit _ _ _ Hmain)|].
  all: split; [reflexivity|].
  all: match goal with
       | Hc : exitCategory _ = _ |- _ =>
           unfold exitCategory in Hc;
           destruct (HasTimedOut o), (HasCrashed o);
           first [reflexivity | discriminate Hc]
       end.
Qed.

(** C2, as amended.  When both runs end normally with the same output,
    none of the suppression checks matches and the diff of the output with
    itself is empty, [main] prints the pass line and returns
    [RETURN_PASS]; the script exits with 0. *)
Theorem equal_outputs_pass
    env options suppress metadata flags1 flags2 o1 o2 d :
  Compared env options suppress metadata flags1 flags2 o1 o2 ->
  stdout o1 = stdout o2 ->
  diff suppress (stdout o1) (stdout o1) = Ok d ->
  truthy d = false ->
  exists tr,
    main env = (tr, Ok RETURN_PASS)
    /\ __main__ env = (tr, 0)
    /\ runs tr = [Ok o1; Ok o2]
    /\ printed tr = ["# V8 correctness - pass"].
Proof.
  intros Hc Heq Hd Ht.
  destruct (main_compared _ _ _ _ _ _ _ _ Hc) as (tr1 & Hr & Hpr & Hmain).
  rewrite <- Heq, Hd, Ht in Hmain.
  exists (tr1 ++ [Print "# V8 correctness - pass"]).
  split; [exact Hmain|]. split; [exact (main_ok_exit _ _ _ Hmain)|].
  rewrite runs_app, printed_app, Hr, Hpr. now split.
Qed.

(** C2 as stated fails: both runs end normally with the same output, and
    the script fails because the second output is a known bad one. *)
Lemma equal_outputs_fail :
  exists tr o,
    main Demo.second_suppressed = (tr, Ok RETURN_FAIL)
    /\ __main__ Demo.second_suppressed = (tr, 2)
    /\ runs tr = [Ok o; Ok o]
    /\ exitCategory o = Normal.
Proof.
  eexists. exists (Demo.out "42"). repeat split; vm_compute; reflexivity.
Qed.

(** C7, as amended.  The subprocess runs of an execution are the run of
    the first configuration and then that of the second one, or a
    beginning of the two.  Each command line is the executable path, the
    fixed flags, [--random-seed] and the seed, the flags of the
    configuration in [CONFIGS], the preamble scripts and the test case
    path, behind the Python interpreter when the executable path ends in
    [.py]; both use the seed of the options, the directory of the test
    case and the fixed timeout. *)
Theorem command_lines env tr r tr0 options :
  main env = (tr, r) ->
  parse_args env = (tr0, Ok options) ->
  exists flags1 flags2,
    CONFIGS !! first_config options = Some flags1
    /\ CONFIGS !! second_config options = Some flags2
    /\ let run d8 flags :=
         (wrapped_command env options d8 flags,
          os_path_dirname env (testcase options), TIMEOUT) in
       commands tr = []
       \/ commands tr = [run (first_d8 options) flags1]
       \/ commands tr = [run (first_d8 options) flags1;
                         run (second_d8 options) flags2].
Proof.
  intros H Hp.
  destruct (parse_args_ok _ _ _ Hp)
    as (ns & _ & _ & _ & _ & Hc1 & Hc2 & _ & _ & _ & _ & [f1 Hf1] & [f2 Hf2]).
  rewrite <- Hc1 in Hf1. rewrite <- Hc2 in Hf2.
  exists f1, f2. split; [exact Hf1|]. split; [exact Hf2|]. cbv zeta.
  destruct (parse_args_quiet _ _ _ Hp) as (_ & Hq & _).
  unfold main in H. rewrite Hp in H. repeat step_main H.
  all: try (digest H; settle H).
  all: rewrite ?run_d8_args_spec.
  all: traces.
  all: repeat match goal with
         | Ha : CONFIGS !! ?k = Some _, Hb : CONFIGS !! ?k = Some _ |- _ =>
             rewrite Ha in Hb; injection Hb as <-
         end.
  all: auto.
Qed.

(** C7 as stated fails: the command line of a d8 that is a Python script
    starts with the interpreter, not with the executable path. *)
Lemma command_line_of_python_d8 :
  exists tr0 options flags args cwd timeout,
    parse_args Demo.python_d8 = (tr0, Ok options)
    /\ CONFIGS !! first_config options = Some flags
    /\ head (commands (fst (main Demo.python_d8))) = Some (args, cwd, timeout)
    /\ head args = Some "/usr/bin/python"
    /\ args <> spec_command Demo.python_d8 options (first_d8 options) flags.
Proof.
  do 6 eexists. split; [vm_compute; reflexivity|].
  split; [vm_compute; reflexivity|].
  split; [vm_compute; reflexivity|].
  split; [reflexivity|]. vm_compute. discriminate.
Qed.

Lemma pass_line_pass : pass_line "# V8 correctness - pass".
Proof. now left. Qed.

Lemma pass_line_timeout n :
  pass_line ("# V8 correctness - T-I-M-E-O-U-T " +:+ PyStr.str n).
Proof. right. left. now exists n. Qed.

Lemma pass_line_crash n :
  pass_line ("# V8 correctness - C-R-A-S-H " +:+ PyStr.str n).
Proof. right. right. now exists n. Qed.

Lemma failure_report_header bug :
  failure_report (FAILURE_HEADER_TEMPLATE "" "" bug).
Proof. left. now exists bug. Qed.

Lemma failure_report_full d : failure_report (FAILURE_TEMPLATE d).
Proof. right. now exists d. Qed.

(** What [main] returns, with the last text it printed. *)
Lemma main_returns env tr v :
  main env = (tr, Ok v) ->
  (v = RETURN_PASS
   /\ exists text, last (printed tr) = Some text /\ pass_line text)
  \/ (v = RETURN_FAIL
      /\ exists text, last (printed tr) = Some text /\ failure_report text).
Proof.
  intros H. run_main H.
  all: traces.
  all: cbn [last].
  all: lazymatch goal with
       | |- (RETURN_PASS = _ /\ _) \/ _ =>
           left; split; [reflexivity|]; eexists; split; [reflexivity|]
       | |- (RETURN_FAIL = _ /\ _) \/ _ =>
           right; split; [reflexivity|]; eexists; split; [reflexivity|]
       end.
  all: lazymatch goal with
       | |- pass_line (_ +:+ _) =>
           first [apply pass_line_timeout | apply pass_line_crash]
       | |- pass_line _ => exact pass_line_pass
       | |- failure_report (FAILURE_HEADER_TEMPLATE _ _ _) =>
           apply failure_report_header
       | |- failure_report (FAILURE_TEMPLATE _) => apply failure_report_full
       end.
Qed.

(** C5.  The script always ends with an exit status, 0 or 2.  When [main]
    returns, the status is its return value: 0 for a pass, the last text
    printed being one of the pass lines, and 2 for a failure, the last
    text printed being a failure report, header-only or full.  When
    [main] raises [SystemExit] the script prints the header-only report
    with the suppression [wrong_usage], and when it raises another
    exception the one with [internal_error], the message and the
    traceback; the status is 2 in both cases. *)
Theorem exit_codes env :
  exists tr code,
    __main__ env = (tr, code)
    /\ (code = 0 \/ code = 2)
    /\ match main env with
       | (tr', Ok v) =>
           tr = tr' /\ code = v
           /\ (v = 0
               /\ (exists text, last (printed tr) = Some text
                                /\ pass_line text)
               \/ v = 2
                  /\ (exists text, last (printed tr) = Some text
                                   /\ failure_report text))
       | (tr', Raise SystemExit) =>
           code = 2
           /\ tr = tr' ++ [Print (FAILURE_HEADER_TEMPLATE "" "" "wrong_usage")]
       | (tr', Raise (Exception cls msg)) =>
           code = 2
           /\ tr = tr' ++ [Print (FAILURE_HEADER_TEMPLATE "" ""
                                    "internal_error");
                           Print ("# Internal error: " +:+ msg);
                           PrintExc (Exception cls msg)]
       end.
Proof.
  unfold __main__.
  destruct (main env) as [tr' [v | [ | cls msg]]] eqn:H.
  - exists tr', v. split; [reflexivity|].
    destruct (main_returns _ _ _ H) as [[-> Hl] | [-> Hl]].
    + split; [now left|]. split; [reflexivity|]. split; [reflexivity|].
      left. now split.
    + split; [now right|]. split; [reflexivity|]. split; [reflexivity|].
      right. now split.
  - eexists _, _. split; [reflexivity|]. split; [now right|]. now split.
  - eexists _, _. split; [reflexivity|]. split; [now right|]. now split.
Qed.

(** C4.  With the same architecture and the same configuration on both
    sides, or with an architecture outside [SUPPORTED_ARCHS] or a
    configuration outside [CONFIGS], an assertion of [parse_args] fails
    before any file is opened or any process is run: the script prints
    the header-only report for an internal error and exits with 2. *)
Theorem validation_rejects env ns :
  argparse env = Ok ns ->
  (ns_first_arch ns = ns_second_arch ns
   /\ ns_first_config ns = ns_second_config ns)
  \/ ns_first_arch ns ∉ SUPPORTED_ARCHS
  \/ ns_second_arch ns ∉ SUPPORTED_ARCHS
  \/ CONFIGS !! ns_first_config ns = None
  \/ CONFIGS !! ns_second_config ns = None ->
  exists msg,
    main env = ([], Raise (Exception "AssertionError" msg))
    /\ __main__ env =
       ([Print (FAILURE_HEADER_TEMPLATE "" "" "internal_error");
         Print ("# Internal error: " +:+ msg);
         PrintExc (Exception "AssertionError" msg)], 2)
    /\ runs (fst (__main__ env)) = [].
Proof.
  intros Ha Hbad.
  assert (exists msg,
             parse_args env = ([], Raise (Exception "AssertionError" msg)))
    as [msg Hp].
  { destruct (parse_args env) as [tr r] eqn:Hp.
    pose proof Hp as H. unfold parse_args in H. rewrite Ha in H.
    step H. do 5 (step H; [eexists; reflexivity|]).
    exfalso.
    repeat match goal with
           | H : bool_decide _ = true |- _ => apply bool_decide_eq_true in H
           end.
    destruct Hbad as [[Ea Ec] | [Hbad | [Hbad | [Hbad | Hbad]]]].
    - rewrite Ea, Ec, !String.eqb_refl in *. discriminate.
    - contradiction.
    - contradiction.
    - match goal with H : is_Some (CONFIGS !! ns_first_config _) |- _ =>
        rewrite Hbad in H; destruct H; discriminate end.
    - match goal with H : is_Some (CONFIGS !! ns_second_config _) |- _ =>
        rewrite Hbad in H; destruct H; discriminate end. }
  assert (main env = ([], Raise (Exception "AssertionError" msg))) as Hmain.
  { unfold main. now rewrite Hp. }
  exists msg. split; [exact Hmain|].
  unfold __main__. rewrite Hmain. now split.
Qed.

(** ** Blank answers of the suppression predicates *)

Lemma blank_cases x :
  blank x = true <->
  x = None \/ exists s, x = Some s /\ PyStr.all_space s = true.
Proof.
  unfold blank. destruct x as [s|]; simpl.
  - split; [eauto | now intros [|(s' & [= <-] & H)]].
  - split; auto.
Qed.

Lemma bailout_on_unblank answer :
  bailout_on (unblank_answer answer) = bailout_on answer.
Proof.
  destruct answer as [x|e]; [|reflexivity]. unfold unblank_answer, unblank.
  cbn [bailout_on]. destruct (blank x) eqn:Hb; [reflexivity|].
  now rewrite Hb.
Qed.

Lemma fail_bailout_unblank o f :
  fail_bailout o (fun out => unblank_answer (f out)) = fail_bailout o f.
Proof. rewrite !fail_bailout_eq. apply bailout_on_unblank. Qed.

Lemma test_pattern_bailout_unblank env testcase f :
  test_pattern_bailout env testcase (fun text => unblank_answer (f text))
  = test_pattern_bailout env testcase f.
Proof.
  rewrite !test_pattern_bailout_eq.
  destruct (file_read env testcase); [|reflexivity].
  now rewrite bailout_on_unblank.
Qed.

Lemma bind_lift_ok {A B} (a : A) (k : A -> M B) : bind (lift (Ok a)) k = k a.
Proof. unfold bind, lift. now destruct (k a). Qed.

(** The script does the same when blanks are read as no answer. *)
Lemma main_unblank env : main (unblank_env env) = main env.
Proof.
  unfold main. change (parse_args (unblank_env env)) with (parse_args env).
  apply bind_ext; intros options.
  cbn [unblank_env with_get_suppression get_suppression].
  destruct (get_suppression env _ _ _ _) as [s|e]; [|reflexivity].
  rewrite !bind_lift_ok.
  cbn [unblank_suppression ignore ignore_by_output1 ignore_by_output2 diff].
  change (test_pattern_bailout (with_get_suppression _ env))
    with (test_pattern_bailout env).
  rewrite test_pattern_bailout_unblank.
  apply bind_ext; intros [|]; [reflexivity|].
  apply bind_ext; intros content. apply bind_ext; intros _.
  apply bind_ext; intros metadata. apply bind_ext; intros flags1.
  apply bind_ext; intros flags2. apply bind_ext; intros o1.
  apply bind_ext; intros [|]; [reflexivity|].
  rewrite fail_bailout_unblank.
  apply bind_ext; intros [|]; [reflexivity|].
  apply bind_ext; intros o2.
  apply bind_ext; intros [|]; [reflexivity|].
  rewrite fail_bailout_unblank. reflexivity.
Qed.

(** C9.  When a suppression predicate answers [None], the empty string or
    white space only, neither bailout triggers: the check prints nothing
    and returns false, as it does for the predicate that always answers
    [None], and the script as a whole runs as it does with predicates that
    answer [None] in place of every blank. *)
Theorem blank_answer_is_no_match env testcase f text o g x :
  blank x = true ->
  file_read env testcase = Ok text ->
  f text = Ok x ->
  g (stdout o) = Ok x ->
  test_pattern_bailout env testcase f = ([Open testcase], Ok false)
  /\ test_pattern_bailout env testcase f
     = test_pattern_bailout env testcase (fun _ => Ok None)
  /\ fail_bailout o g = ([], Ok false)
  /\ fail_bailout o g = fail_bailout o (fun _ => Ok None)
  /\ main (unblank_env env) = main env.
Proof.
  intros Hb Ht Hf Hg.
  rewrite !test_pattern_bailout_eq, !fail_bailout_eq, Ht, Hf, Hg.
  unfold bailout_on. rewrite Hb. cbn.
  repeat split. apply main_unblank.
Qed.

(** ** The failure report *)

Lemma in_order_interleave items tail :
  in_order (List.map snd items) (interleave items tail).
Proof.
  induction items as [|[before part] items IH]; simpl; [trivial|].
  now apply in_order_cons.
Qed.

(** The full report, part by part. *)
Lemma FAILURE_TEMPLATE_parts d :
  FAILURE_TEMPLATE d =
  interleave
    [("#" +:+ PyStr.nl +:+ "# V8 correctness failure" +:+ PyStr.nl,
      "# V8 correctness configs: " +:+ configs d +:+ PyStr.nl);
     (EmptyString, "# V8 correctness sources: " +:+ sources d +:+ PyStr.nl);
     (EmptyString,
      "# V8 correctness suppression: " +:+ suppression d +:+ PyStr.nl);
     ("#", check_marker);
     ("#" +:+ PyStr.nl +:+ "# Compared " +:+ first_config_label d
          +:+ " with " +:+ second_config_label d +:+ PyStr.nl
          +:+ "#" +:+ PyStr.nl,
      "# Flags of " +:+ first_config_label d +:+ ":" +:+ PyStr.nl
        +:+ first_config_flags d +:+ PyStr.nl);
     (EmptyString,
      "# Flags of " +:+ second_config_label d +:+ ":" +:+ PyStr.nl
        +:+ second_config_flags d +:+ PyStr.nl);
     ("#" +:+ PyStr.nl, diff_text d);
     ("#" +:+ PyStr.nl,
      output_block (first_config_label d) (first_config_output d));
     ("#" +:+ PyStr.nl,
      output_block (second_config_label d) (second_config_output d))]
    EmptyString.
Proof.
  unfold FAILURE_TEMPLATE, FAILURE_HEADER_TEMPLATE, interleave, check_marker,
    diff_text, output_block, PyStr.nl.
  cbn [PyStr.lines List.fold_right fst snd].
  rewrite !append_assoc. reflexivity.
Qed.

(** C6, as amended.  The full report holds, in this order: the three
    header fields, the CHECK marker line, the two labelled flag dumps,
    the diff text and the two output blocks, each between its start and
    end lines with the label of its configuration. *)
Theorem report_order d : in_order (template_order d) (FAILURE_TEMPLATE d).
Proof.
  rewrite FAILURE_TEMPLATE_parts.
  match goal with
  | |- in_order _ (interleave ?items ?tail) =>
      exact (in_order_interleave items tail)
  end.
Qed.

(** C6 as stated fails: in the report of [sample_fields] the parts do not
    come in the order of the specification, where the flag dumps are
    before the CHECK marker. *)
Lemma report_not_in_spec_order :
  ~ in_order (spec_order sample_fields) (FAILURE_TEMPLATE sample_fields).
Proof.
  intros H%in_orderb_spec. vm_compute in H. discriminate H.
Qed.

(** ** The fingerprint of the sources *)

Lemma hex_digit_is_hex x : is_hex (SHA1.hex_digit x) = true.
Proof.
  unfold SHA1.hex_digit.
  assert (0 <= Z.land x 15 < 16) as Hn.
  { change 15 with (Z.ones 4). rewrite Z.land_ones by lia.
    apply Z.mod_pos_bound. lia. }
  assert (exists n, Z.land x 15 = Z.of_nat n /\ (n < 16)%nat) as (n & -> & Hlt).
  { exists (Z.to_nat (Z.land x 15)). lia. }
  rewrite Nat2Z.id.
  do 16 (destruct n as [|n]; [reflexivity|]). lia.
Qed.

Lemma take_hex n x rest :
  PyStr.take n (SHA1.hex n x rest) = SHA1.hex n x EmptyString.
Proof.
  induction n as [|n IH]; cbn [SHA1.hex PyStr.take]; [now destruct rest|].
  now rewrite IH.
Qed.

Lemma hex_length n x : String.length (SHA1.hex n x EmptyString) = n.
Proof.
  induction n as [|n IH]; cbn [SHA1.hex String.length]; [reflexivity|].
  now rewrite IH.
Qed.

Lemma hex_all_hex n x : all_hex (SHA1.hex n x EmptyString) = true.
Proof.
  induction n as [|n IH]; cbn [SHA1.hex all_hex]; [reflexivity|].
  now rewrite hex_digit_is_hex, IH.
Qed.

(** The short hash of a source is 8 hex characters. *)
Lemma short_hash_hex source :
  String.length (short_hash source) = 8%nat
  /\ all_hex (short_hash source) = true.
Proof.
  unfold short_hash, SHA1.hexdigest. cbv zeta.
  destruct (SHA1.chunks _ _ _) as [[[[h0 h1] h2] h3] h4].
  rewrite take_hex. split; [apply hex_length | apply hex_all_hex].
Qed.

Lemma map_hsh ids :
  forallb ascii_text ids = true ->
  map_result hsh (List.map PyStr ids) = Ok (List.map short_hash ids).
Proof.
  induction ids as [|source ids IH]; cbn [map_result List.map hsh forallb];
    [reflexivity|].
  intros [Ha Hs]%andb_prop. unfold encode_ascii. rewrite Ha.
  now rewrite (IH Hs).
Qed.

(** Conversely, [hsh] goes through a list only when its elements are
    strings of ASCII characters. *)
Lemma map_hsh_inv l hs :
  map_result hsh l = Ok hs ->
  exists ids,
    l = List.map PyStr ids /\ forallb ascii_text ids = true
    /\ hs = List.map short_hash ids.
Proof.
  revert hs. induction l as [|v l IH]; intros hs; cbn [map_result].
  - intros [= <-]. now exists [].
  - destruct v as [| | | |s| |]; cbn [hsh]; try discriminate.
    unfold encode_ascii. destruct (ascii_text s) eqn:Ha; [|discriminate].
    destruct (map_result hsh l) as [hs'|e]; [|discriminate].
    intros [= <-]. destruct (IH hs' eq_refl) as (ids & -> & Hs & ->).
    exists (s :: ids). cbn [forallb List.map]. now rewrite Ha, Hs.
Qed.

(** The fingerprint of a metadata whose sources are a list of ASCII
    strings. *)
Lemma sources_fingerprint_spec metadata ids :
  getitem metadata "sources" = Ok (PyList (List.map PyStr ids)) ->
  forallb ascii_text ids = true ->
  sources_fingerprint metadata = Ok (spec_fingerprint ids).
Proof.
  intros H Ha. unfold sources_fingerprint. rewrite H. cbn [iter].
  now rewrite (map_hsh _ Ha).
Qed.

(** A fingerprint is made of a list of sources only when they are ASCII
    strings. *)
Lemma sources_fingerprint_inv metadata l fp :
  getitem metadata "sources" = Ok (PyList l) ->
  sources_fingerprint metadata = Ok fp ->
  exists ids,
    l = List.map PyStr ids /\ forallb ascii_text ids = true
    /\ fp = spec_fingerprint ids.
Proof.
  intros Hg. unfold sources_fingerprint. rewrite Hg. cbn [iter].
  destruct (map_result hsh l) as [hs|e] eqn:Hm; [|discriminate].
  intros [= <-]. destruct (map_hsh_inv _ _ Hm) as (ids & -> & Ha & ->).
  now exists ids.
Qed.

(** C8.  When the outputs of the two runs differ and the sources of the
    metadata are a list, every failure report that [main] prints carries
    the fingerprint of the claim: the sources are strings, and the sources
    field is the first 8 hex characters of the SHA-1 of each, in the order
    of the list and joined with commas.  Such a report is printed whenever
    the sources are ASCII strings, the ones [hashlib.sha1] takes from
    [json.load] in Python 2; the field is a function of the list of
    sources alone. *)
Theorem report_sources_fingerprint
    env options suppress metadata flags1 flags2 o1 o2 x l :
  Compared env options suppress metadata flags1 flags2 o1 o2 ->
  diff suppress (stdout o1) (stdout o2) = Ok x ->
  truthy x = true ->
  getitem metadata "sources" = Ok (PyList l) ->
  (forall ids,
     l = List.map PyStr ids ->
     forallb ascii_text ids = true ->
     exists tr1 d,
       main env = (tr1 ++ [Print (FAILURE_TEMPLATE d)], Ok RETURN_FAIL)
       /\ d = report_fields options (spec_fingerprint ids) flags1 flags2
                o1 o2 (or_empty x)
       /\ sources d = PyStr.join "," (List.map short_hash ids)
       /\ Forall (fun source =>
                    String.length (short_hash source) = 8%nat
                    /\ all_hex (short_hash source) = true) ids)
  /\ (forall tr v,
        main env = (tr, Ok v) ->
        exists ids d,
          l = List.map PyStr ids
          /\ forallb ascii_text ids = true
          /\ printed tr = [FAILURE_TEMPLATE d]
          /\ sources d = PyStr.join "," (List.map short_hash ids)).
Proof.
  intros Hc Hd Ht Hs.
  destruct (main_compared _ _ _ _ _ _ _ _ Hc) as (tr1 & _ & Hp & Hmain).
  rewrite Hd, Ht in Hmain. split.
  - intros ids -> Ha.
    rewrite (sources_fingerprint_spec _ _ Hs Ha) in Hmain.
    exists tr1. eexists. split; [exact Hmain|]. split; [reflexivity|].
    split; [reflexivity|].
    apply Forall_forall. intros source _. apply short_hash_hex.
  - intros tr v Hv.
    destruct (sources_fingerprint metadata) as [fp|e] eqn:Hf.
    + destruct (sources_fingerprint_inv _ _ _ Hs Hf) as (ids & -> & Ha & ->).
      rewrite Hv in Hmain. injection Hmain as -> _.
      exists ids. eexists. split; [reflexivity|]. split; [exact Ha|].
      rewrite printed_app, Hp. split; reflexivity.
    + rewrite Hv in Hmain. discriminate Hmain.
Qed.

(** ** More on [parse_args] *)

Lemma bind_assert_true c msg {B} (k : unit -> M B) :
  c = true -> bind (assert c msg) k = k tt.
Proof. intros ->. unfold bind, assert, ret. now destruct (k tt). Qed.

Lemma bind_assert_false c msg {B} (k : unit -> M B) :
  c = false ->
  bind (assert c msg) k = ([], Raise (Exception "AssertionError" msg)).
Proof. now intros ->. Qed.

Lemma sane_checks ns :
  Sane ns ->
  negb (String.eqb (ns_first_arch ns) (ns_second_arch ns))
  || negb (String.eqb (ns_first_config ns) (ns_second_config ns)) = true
  /\ bool_decide (ns_first_arch ns ∈ SUPPORTED_ARCHS) = true
  /\ bool_decide (ns_second_arch ns ∈ SUPPORTED_ARCHS) = true
  /\ bool_decide (is_Some (CONFIGS !! ns_first_config ns)) = true
  /\ bool_decide (is_Some (CONFIGS !! ns_second_config ns)) = true.
Proof.
  intros [Hd Ha1 Ha2 Hc1 Hc2].
  repeat split; try (now apply bool_decide_eq_true_2).
  apply orb_true_iff. destruct Hd as [Hd | Hd]; [left | right].
  all: apply negb_true_iff, String.eqb_neq; exact Hd.
Qed.

(** The checks of [parse_args] and what is left of it once the five on
    the architectures and configurations have passed. *)
Lemma parse_args_sane env ns :
  argparse env = Ok ns ->
  Sane ns ->
  parse_args env =
  (assert (os_path_exists env (ns_testcase ns)
           && os_path_isfile env (ns_testcase ns))
          ("Test case " +:+ ns_testcase ns +:+ " doesn't exist");;
   assert (os_path_exists env (resources_path env ns))
          ("Resources file " +:+ resources_path env ns +:+ " doesn't exist");;
   content <- open_read env (resources_path env ns);;
   let resources := PyStr.splitlines (PyStr.strip content) in
   assert (List.length resources =? 1)%nat "";;
   let meta_data_path :=
     os_path_join env (os_path_dirname env (resources_path env ns))
       (List.nth 0 resources EmptyString) in
   assert (os_path_exists env meta_data_path)
          ("Metadata " +:+ meta_data_path +:+ " doesn't exist");;
   assert (os_path_exists env (os_path_abspath env (ns_first_d8 ns))) "";;
   assert (os_path_exists env (os_path_abspath env (second_d8_or_first ns)))
          "";;
   (if negb (String.eqb (ns_first_arch ns) (ns_second_arch ns))
    then assert (negb (String.eqb
                         (os_path_abspath env (ns_first_d8 ns))
                         (os_path_abspath env (second_d8_or_first ns)))) ""
    else ret tt);;
   ret (parsed_options env ns (List.nth 0 resources EmptyString))).
Proof.
  intros Ha Hs. destruct (sane_checks _ Hs) as (H1 & H2 & H3 & H4 & H5).
  unfold parse_args. rewrite Ha, bind_lift_ok.
  rewrite (bind_assert_true _ _ _ H1), (bind_assert_true _ _ _ H2),
    (bind_assert_true _ _ _ H3), (bind_assert_true _ _ _ H4),
    (bind_assert_true _ _ _ H5).
  reflexivity.
Qed.

(** X1.  When the comparison is a sane one, the test case, its resources
    file, the metadata file named on the one line of the resources file
    and both executables are there, and the executables differ where the
    architectures do, [parse_args] returns the options, having opened the
    resources file and nothing else.  The second executable is the first
    one when none is given, both are made absolute, and the metadata file
    is looked up next to the resources file. *)
Theorem parse_args_accepts env ns line :
  argparse env = Ok ns ->
  Sane ns ->
  Found_testcase env ns ->
  Found_rest env ns line ->
  (ns_first_arch ns <> ns_second_arch ns ->
   os_path_abspath env (ns_first_d8 ns)
   <> os_path_abspath env (second_d8_or_first ns)) ->
  parse_args env
  = ([Open (resources_path env ns)], Ok (parsed_options env ns line)).
Proof.
  intros Ha Hs [Ht Hr] [(content & Hc & Hl) Hm H1 H2] Hd.
  rewrite (parse_args_sane _ _ Ha Hs).
  rewrite (bind_assert_true _ _ _ Ht), (bind_assert_true _ _ _ Hr).
  rewrite open_read_eq, Hc. cbn [bind]. cbv zeta. rewrite Hl.
  cbn [List.length Nat.eqb List.nth].
  rewrite (bind_assert_true _ _ _ eq_refl), (bind_assert_true _ _ _ Hm),
    (bind_assert_true _ _ _ H1), (bind_assert_true _ _ _ H2).
  destruct (String.eqb_spec (ns_first_arch ns) (ns_second_arch ns)) as [E|E];
    cbn [negb].
  - reflexivity.
  - apply Hd in E. apply String.eqb_neq in E.
    rewrite (bind_assert_true _ _ _ (proj2 (negb_true_iff _) E)). reflexivity.
Qed.

(** X2.  The other way round: options that [parse_args] returns come from
    a namespace that passed every check, and the resources file is the
    one file that was opened. *)
Theorem parse_args_returns env tr options :
  parse_args env = (tr, Ok options) ->
  exists ns line,
    argparse env = Ok ns
    /\ Sane ns /\ Found_testcase env ns /\ Found_rest env ns line
    /\ (ns_first_arch ns <> ns_second_arch ns ->
        first_d8 options <> second_d8 options)
    /\ options = parsed_options env ns line
    /\ tr = [Open (resources_path env ns)].
Proof.
  intros H. destruct (parse_args_ok _ _ _ H)
    as (ns & Ha & _ & _ & _ & _ & _ & _ & Hd & Ha1 & Ha2 & Hc1 & Hc2).
  assert (Sane ns) as Hs by now constructor.
  rewrite (parse_args_sane _ _ Ha Hs) in H.
  repeat step H.
  all: digest H; settle H.
  all: match goal with
       | Hl : (length ?l =? 1)%nat = true |- _ =>
           destruct l as [|line [|]] eqn:El; try discriminate Hl
       end.
  all: exists ns, line; cbn [List.nth].
  all: split; [exact Ha|]; split; [exact Hs|].
  all: split; [now constructor|].
  all: split; [constructor; eauto|].
  all: split; [|split; reflexivity].
  all: cbn [parsed_options first_d8 second_d8]; intros E.
  all: apply String.eqb_neq in E.
  all: match goal with
       | Hn : negb (_ =? _)%string = _ |- _ => rewrite E in Hn
       end.
  all: try discriminate.
  all: apply String.eqb_neq.
  all: match goal with
       | Hn : negb ?b = true |- _ => now apply negb_true_iff in Hn
       end.
Qed.

(** What the script does when [parse_args] raises. *)
Lemma parse_args_raises env tr cls msg :
  parse_args env = (tr, Raise (Exception cls msg)) ->
  main env = (tr, Raise (Exception cls msg))
  /\ __main__ env =
     (tr ++ [Print (FAILURE_HEADER_TEMPLATE "" "" "internal_error");
             Print ("# Internal error: " +:+ msg);
             PrintExc (Exception cls msg)], 2).
Proof.
  intros Hp.
  assert (main env = (tr, Raise (Exception cls msg))) as Hmain.
  { unfold main. now rewrite Hp. }
  split; [exact Hmain|]. unfold __main__. now rewrite Hmain.
Qed.


(** X4.  The resources file has to hold exactly one line once stripped:
    with none (an empty or blank file) or with several, the assertion on
    the number of lines fails after the file has been read, and nothing
    is made of its content. *)
Theorem resources_lines_rejected env ns content :
  argparse env = Ok ns ->
  Sane ns ->
  Found_testcase env ns ->
  file_read env (resources_path env ns) = Ok content ->
  List.length (PyStr.splitlines (PyStr.strip content)) <> 1%nat ->
  parse_args env
  = ([Open (resources_path env ns)], Raise (Exception "AssertionError" ""))
  /\ snd (__main__ env) = 2
  /\ runs (fst (__main__ env)) = [].
Proof.
  intros Ha Hs [Ht Hr] Hc Hl.
  assert (parse_args env
          = ([Open (resources_path env ns)],
             Raise (Exception "AssertionError" ""))) as Hp.
  { rewrite (parse_args_sane _ _ Ha Hs).
    rewrite (bind_assert_true _ _ _ Ht), (bind_assert_true _ _ _ Hr).
    rewrite open_read_eq, Hc. cbn [bind]. cbv zeta.
    apply Nat.eqb_neq in Hl.
    now rewrite (bind_assert_false _ _ _ Hl). }
  split; [exact Hp|].
  rewrite (proj2 (parse_args_raises _ _ _ _ Hp)). now split.
Qed.

(** X5.  Two architectures cannot be compared on one executable: when the
    architectures differ and the two executables have the same absolute
    path, as they do when no second executable is given, the last
    assertion of [parse_args] fails, everything else being in order. *)
Theorem same_executable_rejected env ns line :
  argparse env = Ok ns ->
  Sane ns ->
  Found_testcase env ns ->
  Found_rest env ns line ->
  ns_first_arch ns <> ns_second_arch ns ->
  os_path_abspath env (ns_first_d8 ns)
    = os_path_abspath env (second_d8_or_first ns) ->
  parse_args env
  = ([Open (resources_path env ns)], Raise (Exception "AssertionError" ""))
  /\ snd (__main__ env) = 2
  /\ runs (fst (__main__ env)) = [].
Proof.
  intros Ha Hs [Ht Hr] [(content & Hc & Hl) Hm H1 H2] Hd He.
  assert (parse_args env
          = ([Open (resources_path env ns)],
             Raise (Exception "AssertionError" ""))) as Hp.
  { rewrite (parse_args_sane _ _ Ha Hs).
    rewrite (bind_assert_true _ _ _ Ht), (bind_assert_true _ _ _ Hr).
    rewrite open_read_eq, Hc. cbn [bind]. cbv zeta. rewrite Hl.
    cbn [List.length Nat.eqb List.nth].
    rewrite (bind_assert_true _ _ _ eq_refl), (bind_assert_true _ _ _ Hm),
      (bind_assert_true _ _ _ H1), (bind_assert_true _ _ _ H2).
    apply String.eqb_neq in Hd. rewrite Hd. cbn [negb].
    rewrite He, String.eqb_refl. cbn [negb].
    now rewrite (bind_assert_false _ _ _ eq_refl). }
  split; [exact Hp|].
  rewrite (proj2 (parse_args_raises _ _ _ _ Hp)). now split.
Qed.

(** When no second executable is given, or an empty one, it is the
    first. *)
Lemma second_d8_defaults ns :
  truthy (ns_second_d8 ns) = false -> second_d8_or_first ns = ns_first_d8 ns.
Proof. unfold second_d8_or_first. now intros ->. Qed.

(** ** More on the pipeline *)

(** X6.  When [main] returns it has printed exactly one text, and when it
    raises an exception of class [Exception] it has printed nothing: a
    report is printed last, once everything that can fail has been done,
    so that the error report of the top level is never mixed with another
    one.  [SystemExit] is left out: [argparse] raises it after writing a
    text of its own, the usage or the help, which the traces do not
    hold. *)
Theorem main_prints_once env tr r :
  main env = (tr, r) ->
  r <> Raise SystemExit ->
  match r with
  | Ok _ => exists text, printed tr = [text]
  | Raise _ => printed tr = []
  end.
Proof.
  intros H Hr. run_main H.
  all: traces.
  all: first [reflexivity | eexists; reflexivity].
Qed.

(** X7.  At most two subprocesses are run, and a run that raises is the
    last one: its exception is what [main] raises. *)
Theorem runs_of_main env tr r :
  main env = (tr, r) ->
  (length (runs tr) <= 2)%nat
  /\ forall e, In (Raise e) (runs tr) ->
               r = Raise e /\ last (runs tr) = Some (Raise e).
Proof.
  intros H. run_main H.
  all: traces.
  all: split; [cbn [length]; lia|].
  all: intros e' Hin; cbn [In] in Hin.
  all: repeat match goal with
         | H : _ \/ _ |- _ => destruct H as [H | H]
         | H : False |- _ => destruct H
         | H : Ok _ = Raise _ |- _ => discriminate H
         | H : Raise _ = Raise _ |- _ => injection H as ->
         end.
  all: now split.
Qed.

(** X8.  Every file is read before the first subprocess is run.  In a
    trace with a run, [parse_args] has returned, the test case has been
    read, the metadata file has been read and loaded, in this order, and
    what follows holds runs and prints only. *)
Theorem files_before_runs env tr r :
  main env = (tr, r) ->
  runs tr <> [] ->
  exists tr0 options rest,
    parse_args env = (tr0, Ok options)
    /\ tr = tr0 ++ [Open (testcase options); Open (meta_data_path options);
                    JsonLoad (meta_data_path options)] ++ rest
    /\ Forall run_or_print rest.
Proof.
  intros H Hruns. run_main H.
  all: try (exfalso; apply Hruns; traces; reflexivity).
  all: match goal with
       | Hp : parse_args _ = (?tr0, Ok ?options) |- _ =>
           exists tr0, options
       end.
  all: cbn [app]; eexists; split; [eassumption|]; split; [reflexivity|].
  all: repeat constructor.
Qed.

(** X9.  [main] returns without having run anything only through the
    pre-run suppression: the result is then [RETURN_FAIL], the predicate
    [ignore] named a bug on the text of the test case, and the header-only
    report with that bug is the one text printed.  A pass is never given
    without a run. *)
Theorem return_without_run env tr v :
  main env = (tr, Ok v) ->
  runs tr = [] ->
  v = RETURN_FAIL
  /\ exists tr0 options suppress text x,
       parse_args env = (tr0, Ok options)
       /\ get_suppression env (first_arch options) (first_config options)
            (second_arch options) (second_config options) = Ok suppress
       /\ file_read env (testcase options) = Ok text
       /\ ignore suppress text = Ok x
       /\ blank x = false
       /\ tr = tr0 ++ [Open (testcase options);
                       Print (FAILURE_HEADER_TEMPLATE "" ""
                                (PyStr.strip (or_empty x)))].
Proof.
  intros H Hruns. run_main H.
  all: traces.
  all: try discriminate Hruns.
  split; [reflexivity|].
  do 5 eexists. repeat (split; [eassumption|]). reflexivity.
Qed.

(** X10.  When [main] returns after one run that ended normally, the
    output of that run matched the output-based suppression of the first
    side: the result is [RETURN_FAIL], the header-only report with the
    bug is the one text printed, and the second configuration was not
    run. *)
Theorem return_after_one_run env tr v o :
  main env = (tr, Ok v) ->
  runs tr = [Ok o] ->
  exitCategory o = Normal ->
  v = RETURN_FAIL
  /\ exists tr0 options suppress x,
       parse_args env = (tr0, Ok options)
       /\ get_suppression env (first_arch options) (first_config options)
            (second_arch options) (second_config options) = Ok suppress
       /\ ignore_by_output1 suppress (stdout o) = Ok x
       /\ blank x = false
       /\ printed tr = [FAILURE_HEADER_TEMPLATE "" ""
                          (PyStr.strip (or_empty x))].
Proof.
  intros H Hruns Hn. run_main H.
  all: traces.
  all: try discriminate Hruns.
  all: injection Hruns as ->.
  all: try congruence.
  split; [reflexivity|].
  do 4 eexists. repeat (split; [eassumption|]). reflexivity.
Qed.

(** X11.  When [main] returns after two runs of which the second ended
    normally, the first ended normally too, and one of three things
    happened: the second output matched its output-based suppression
    (failure, header-only report); the diff of the two outputs was empty
    (pass); or it was not, and the full report printed holds the two
    outputs and the diff, with no suppression (failure).  A pass line or
    a full report always comes from a diff of two outputs. *)
Theorem return_after_two_runs env tr v o1 o2 :
  main env = (tr, Ok v) ->
  runs tr = [Ok o1; Ok o2] ->
  exitCategory o2 = Normal ->
  exitCategory o1 = Normal
  /\ exists tr0 options suppress,
       parse_args env = (tr0, Ok options)
       /\ get_suppression env (first_arch options) (first_config options)
            (second_arch options) (second_config options) = Ok suppress
       /\ ((exists x,
              ignore_by_output2 suppress (stdout o2) = Ok x
              /\ blank x = false
              /\ v = RETURN_FAIL
              /\ printed tr = [FAILURE_HEADER_TEMPLATE "" ""
                                 (PyStr.strip (or_empty x))])
           \/ (exists x,
                 diff suppress (stdout o1) (stdout o2) = Ok x
                 /\ truthy x = false
                 /\ v = RETURN_PASS
                 /\ printed tr = ["# V8 correctness - pass"])
           \/ (exists x d,
                 diff suppress (stdout o1) (stdout o2) = Ok x
                 /\ truthy x = true
                 /\ v = RETURN_FAIL
                 /\ printed tr = [FAILURE_TEMPLATE d]
                 /\ first_config_output d = stdout o1
                 /\ second_config_output d = stdout o2
                 /\ difference d = or_empty x
                 /\ suppression d = "")).
Proof.
  intros H Hruns Hn. run_main H.
  all: traces.
  all: try discriminate Hruns.
  all: injection Hruns as -> ->.
  all: try congruence.
  all: split; [assumption|].
  all: do 3 eexists; split; [eassumption|]; split; [eassumption|].
  all: first
    [ left; eexists; split; [eassumption|]; split; [eassumption|];
      split; reflexivity
    | right; left; eexists; split; [eassumption|]; split; [eassumption|];
      split; reflexivity
    | right; right; do 2 eexists; split; [eassumption|];
      split; [eassumption|]; split; [reflexivity|]; split; [reflexivity|];
      repeat split ].
Qed.

(** ** More on what is printed *)

Ltac report_kind :=
  lazymatch goal with
  | |- pass_line (_ +:+ _) =>
      first [apply pass_line_timeout | apply pass_line_crash]
  | |- pass_line _ => exact pass_line_pass
  | |- failure_report (FAILURE_HEADER_TEMPLATE _ _ _) =>
      apply failure_report_header
  | |- failure_report (FAILURE_TEMPLATE _) => apply failure_report_full
  end.

(** X12.  A pass line is never a failure report: the one starts with a
    sharp sign and a space, the other with a sharp sign alone on its
    line, so that a reader of the output tells them apart at once. *)
Theorem pass_line_is_no_failure_report text :
  pass_line text -> ~ failure_report text.
Proof.
  intros Hp Hf.
  assert (exists rest, text = String "#" (String " " rest)) as [rest ->].
  { destruct Hp as [-> | [[n ->] | [n ->]]]; eexists; reflexivity. }
  destruct Hf as [[bug Hf] | [d Hf]]; discriminate Hf.
Qed.

(** X13.  When [main] returns, or raises an exception of class
    [Exception], the first text the script prints tells its exit status:
    with status 0 it is a pass line, and the only text printed; with
    status 2 it is a failure report, which for an error is the header-only
    report of the top level, nothing having been printed before it.
    [SystemExit] is left out, as [argparse] raises it after writing the
    usage or the help itself. *)
Theorem first_text_tells_status env tr r :
  main env = (tr, r) ->
  r <> Raise SystemExit ->
  exists text rest,
    printed (fst (__main__ env)) = text :: rest
    /\ (snd (__main__ env) = 0 /\ pass_line text /\ rest = []
        \/ snd (__main__ env) = 2 /\ failure_report text).
Proof.
  intros H Hr. unfold __main__. rewrite H.
  destruct r as [v | [ | cls msg]]; [| now destruct Hr |]; cbn [fst snd].
  all: run_main H.
  all: traces.
  all: do 2 eexists; (split; [reflexivity|]).
  all: lazymatch goal with
       | |- RETURN_PASS = 0 /\ _ \/ _ =>
           left; split; [reflexivity|]; split; [report_kind | reflexivity]
       | |- _ => right; split; [reflexivity|]; report_kind
       end.
Qed.

(** ** The label of a bailout *)

Lemma rstrip_nonspace c s :
  PyStr.isspace c = false ->
  PyStr.rstrip (String c s) = String c (PyStr.rstrip s).
Proof. intros Hc. cbn [PyStr.rstrip]. rewrite Hc. now destruct (PyStr.rstrip s). Qed.

Lemma rstrip_idempotent s : PyStr.rstrip (PyStr.rstrip s) = PyStr.rstrip s.
Proof.
  induction s as [|c s IH]; [reflexivity|]. cbn [PyStr.rstrip].
  destruct (PyStr.rstrip s) as [|a r] eqn:Hr.
  - destruct (PyStr.isspace c) eqn:Hc; [reflexivity|].
    cbn [PyStr.rstrip]. now rewrite Hc.
  - change (PyStr.rstrip (String c (String a r)))
      with (match PyStr.rstrip (String a r) with
            | EmptyString =>
                if PyStr.isspace c then EmptyString else String c EmptyString
            | r' => String c r'
            end).
    now rewrite IH.
Qed.

Lemma lstrip_head s :
  PyStr.lstrip s = EmptyString
  \/ exists c t, PyStr.lstrip s = String c t /\ PyStr.isspace c = false.
Proof.
  induction s as [|c s IH]; [now left|]. cbn [PyStr.lstrip].
  destruct (PyStr.isspace c) eqn:Hc; [exact IH|]. right. now exists c, s.
Qed.

Lemma strip_idempotent s : PyStr.strip (PyStr.strip s) = PyStr.strip s.
Proof.
  unfold PyStr.strip. destruct (lstrip_head s) as [-> | (c & t & -> & Hc)].
  - reflexivity.
  - rewrite (rstrip_nonspace _ _ Hc). cbn [PyStr.lstrip]. rewrite Hc.
    rewrite (rstrip_nonspace _ _ Hc). now rewrite rstrip_idempotent.
Qed.

(** X14.  [fail_bailout] returns true exactly when the predicate names a
    bug.  The label of the report it then prints is the answer stripped:
    it is not empty and has no white space around, and stripping it again
    changes nothing.  When it returns false it has printed nothing. *)
Theorem fail_bailout_label o f tr b :
  fail_bailout o f = (tr, Ok b) ->
  exists x,
    f (stdout o) = Ok x
    /\ b = negb (blank x)
    /\ if b then
         let bug := PyStr.strip (or_empty x) in
         tr = [Print (FAILURE_HEADER_TEMPLATE "" "" bug)]
         /\ bug <> EmptyString
         /\ PyStr.strip bug = bug
       else tr = [].
Proof.
  rewrite fail_bailout_eq. intros H. apply bailout_on_inv in H.
  destruct H as [(e & _ & _ & H) | [(x & Hf & Hb & -> & H)
                                   | (x & Hf & Hb & -> & H)]].
  - discriminate H.
  - injection H as ->. exists x. rewrite Hb. now repeat split.
  - injection H as ->. exists x. rewrite Hb. repeat split; [exact Hf | |].
    + intros E. pose proof (truthy_strip (or_empty x)) as Ht.
      rewrite E in Ht. unfold blank in Hb. rewrite Hb in Ht. discriminate Ht.
    + apply strip_idempotent.
Qed.

(** ** More on the fingerprint *)

(** X15.  For a metadata whose sources are a list, the fingerprint can be
    made exactly when every source is a string of ASCII characters, and is
    then the short hashes of the sources joined with commas; one source of
    another type, or one with a character that the ASCII codec cannot
    encode, makes the whole fingerprint fail. *)
Theorem fingerprint_needs_strings metadata l fp :
  getitem metadata "sources" = Ok (PyList l) ->
  sources_fingerprint metadata = Ok fp
  <-> exists ids,
        l = List.map PyStr ids /\ forallb ascii_text ids = true
        /\ fp = spec_fingerprint ids.
Proof.
  intros Hg. split.
  - now apply sources_fingerprint_inv.
  - intros (ids & -> & Ha & ->). now apply sources_fingerprint_spec.
Qed.

(** X16.  When the outputs differ and the fingerprint of the sources
    cannot be made (no [sources] in the metadata, or a source that is no
    string), no report of the difference is printed: [main] raises after
    both runs, and the script reports an internal error and exits
    with 2. *)
Theorem difference_without_fingerprint
    env options suppress metadata flags1 flags2 o1 o2 x cls msg :
  Compared env options suppress metadata flags1 flags2 o1 o2 ->
  diff suppress (stdout o1) (stdout o2) = Ok x ->
  truthy x = true ->
  sources_fingerprint metadata = Raise (Exception cls msg) ->
  exists tr,
    main env = (tr, Raise (Exception cls msg))
    /\ runs tr = [Ok o1; Ok o2]
    /\ printed tr = []
    /\ __main__ env =
       (tr ++ [Print (FAILURE_HEADER_TEMPLATE "" "" "internal_error");
               Print ("# Internal error: " +:+ msg);
               PrintExc (Exception cls msg)], 2).
Proof.
  intros Hc Hd Ht Hf.
  destruct (main_compared _ _ _ _ _ _ _ _ Hc) as (tr & Hr & Hp & Hmain).
  rewrite Hd, Ht, Hf in Hmain. exists tr.
  split; [exact Hmain|]. split; [exact Hr|]. split; [exact Hp|].
  unfold __main__. now rewrite Hmain.
Qed.

(** A metadata that is a dict without [sources] has no fingerprint. *)
Lemma fingerprint_missing_key items :
  List.find (fun kv => String.eqb (fst kv) "sources") items = None ->
  sources_fingerprint (PyDict items)
  = Raise (Exception "KeyError" "'sources'").
Proof. intros H. unfold sources_fingerprint, getitem. now rewrite H. Qed.

(** ** More on the options and the metadata *)

(** X17.  Without a second executable only configurations can be
    compared: when [parse_args] returns options for a command line that
    gives no second executable (or an empty one), both runs use the same
    executable, the architectures are the same and the configurations
    differ. *)
Theorem one_executable_one_architecture env ns tr options :
  argparse env = Ok ns ->
  truthy (ns_second_d8 ns) = false ->
  parse_args env = (tr, Ok options) ->
  second_d8 options = first_d8 options
  /\ first_arch options = second_arch options
  /\ first_config options <> second_config options.
Proof.
  intros Ha Hn H. destruct (parse_args_ok _ _ _ H)
    as (ns' & Ha' & _ & _ & _ & _ & _ & _ & Hd & Ha1 & Ha2 & Hc1 & Hc2).
  rewrite Ha in Ha'. injection Ha' as <-.
  assert (Sane ns) as Hs by now constructor.
  rewrite (parse_args_sane _ _ Ha Hs) in H.
  rewrite (second_d8_defaults _ Hn) in H.
  repeat step H.
  all: digest H; settle H.
  all: cbn [parsed_options first_d8 second_d8 first_arch second_arch
              first_config second_config].
  all: rewrite ?(second_d8_defaults _ Hn).
  all: match goal with
       | Hb : negb (_ =? _)%string = _ |- _ => rename Hb into Harch
       end.
  - rewrite String.eqb_refl in *. discriminate.
  - split; [reflexivity|]. apply negb_false_iff, String.eqb_eq in Harch.
    split; [exact Harch|]. now destruct Hd.
Qed.

(** X18.  A metadata file that cannot be loaded stops the script before
    any run: when the test case is not a known bad one and [json.loads]
    raises on the content of the metadata file, [main] raises that
    exception with no subprocess run and nothing printed, and the script
    reports an internal error and exits with 2. *)
Theorem unloadable_metadata_stops
    env tr0 options suppress tr1 content cls msg :
  parse_args env = (tr0, Ok options) ->
  get_suppression env (first_arch options) (first_config options)
    (second_arch options) (second_config options) = Ok suppress ->
  test_pattern_bailout env (testcase options) (ignore suppress)
    = (tr1, Ok false) ->
  file_read env (meta_data_path options) = Ok content ->
  json_loads env content = Raise (Exception cls msg) ->
  let tr := tr0 ++ tr1 ++ [Open (meta_data_path options);
                           JsonLoad (meta_data_path options)] in
  main env = (tr, Raise (Exception cls msg))
  /\ runs tr = [] /\ printed tr = []
  /\ __main__ env =
     (tr ++ [Print (FAILURE_HEADER_TEMPLATE "" "" "internal_error");
             Print ("# Internal error: " +:+ msg);
             PrintExc (Exception cls msg)], 2).
Proof.
  intros Hp Hs Ht Hc Hj tr.
  assert (main env = (tr, Raise (Exception cls msg))) as Hmain.
  { unfold main. rewrite Hp. cbn [bind]. unfold lift at 1. rewrite Hs.
    cbn [bind]. rewrite Ht. cbn [bind]. rewrite open_read_eq, Hc.
    cbn [bind emit lift]. rewrite Hj. cbn [app]. reflexivity. }
  destruct (parse_args_quiet _ _ _ Hp) as (Hr0 & _ & Hp0 & _).
  apply test_pattern_bailout_inv in Ht.
  assert (tr1 = [Open (testcase options)]) as ->.
  { destruct Ht as [(? & ? & ? & ?)
                   | (? & ? & [(? & ? & ? & ?)
                              | [(? & ? & ? & ? & ?) | (? & ? & ? & ? & ?)]])];
      first [assumption | discriminate]. }
  split; [exact Hmain|].
  split; [subst tr; now rewrite runs_app, Hr0|].
  split; [subst tr; now rewrite printed_app, Hp0|].
  unfold __main__. now rewrite Hmain.
Qed.

(** ** The theorems on the concrete environments *)

Lemma timeout_or_crash_passes_witness :
  runs (fst (main Demo.first_times_out)) !! 0%nat
    = Some (Ok (Demo.timed_out "partial"))
  /\ exitCategory (Demo.timed_out "partial") <> Normal
  /\ ignore_by_output1 Demo.output1_known_bad "partial"
     = Ok (Some "crbug.com/1")
  /\ snd (main Demo.first_times_out) = Ok RETURN_PASS
  /\ __main__ Demo.first_times_out = (fst (main Demo.first_times_out), 0)
  /\ length (runs (fst (main Demo.first_times_out))) = 1%nat
  /\ printed (fst (main Demo.first_times_out))
     = ["# V8 correctness - T-I-M-E-O-U-T 1"].
Proof.
  split; [vm_compute; reflexivity|].
  split; [vm_compute; discriminate|].
  split; [reflexivity|].
  apply (timeout_or_crash_passes Demo.first_times_out
           (fst (main Demo.first_times_out)) (snd (main Demo.first_times_out))
           0 (Demo.timed_out "partial")).
  - vm_compute. reflexivity.
  - vm_compute. reflexivity.
  - vm_compute. discriminate.
Defined.

Ltac by_computation :=
  repeat match goal with
         | |- exists _, _ => eexists
         | |- _ /\ _ => split
         end;
  vm_compute; reflexivity.

Lemma same_output_compared :
  Compared Demo.same_output Demo.usual_options Demo.no_suppression
    Demo.metadata_value [] ["--nocrankshaft"; "--turbo-filter=~"]
    (Demo.out (Demo.line "42")) (Demo.out (Demo.line "42")).
Proof. constructor; by_computation. Defined.

Lemma different_output_compared :
  Compared Demo.different_output Demo.usual_options Demo.no_suppression
    Demo.metadata_value [] ["--nocrankshaft"; "--turbo-filter=~"]
    (Demo.out (Demo.line "[A]")) (Demo.out (Demo.line "[B]")).
Proof. constructor; by_computation. Defined.

Lemma equal_outputs_pass_witness :
  exists tr,
    main Demo.same_output = (tr, Ok RETURN_PASS)
    /\ __main__ Demo.same_output = (tr, 0)
    /\ runs tr = [Ok (Demo.out (Demo.line "42"));
                  Ok (Demo.out (Demo.line "42"))]
    /\ printed tr = ["# V8 correctness - pass"].
Proof.
  apply (equal_outputs_pass Demo.same_output Demo.usual_options
           Demo.no_suppression Demo.metadata_value []
           ["--nocrankshaft"; "--turbo-filter=~"]
           (Demo.out (Demo.line "42")) (Demo.out (Demo.line "42")) None).
  - exact same_output_compared.
  - reflexivity.
  - vm_compute. reflexivity.
  - reflexivity.
Defined.

Lemma pre_run_suppression_fails_witness :
  let tr := [Open "/fuzz/resources-8.js"; Open "/fuzz/fuzz-8.js";
             Print (FAILURE_HEADER_TEMPLATE "" "" "crbug.com/3")] in
  main Demo.known_bad_testcase = (tr, Ok RETURN_FAIL)
  /\ __main__ Demo.known_bad_testcase = (tr, 2)
  /\ runs tr = [] /\ commands tr = [].
Proof.
  apply (pre_run_suppression_fails Demo.known_bad_testcase
           [Open "/fuzz/resources-8.js"] Demo.known_bad_options
           Demo.known_bad "print(%DebugPrint(8))" (Some "crbug.com/3")).
  - vm_compute. reflexivity.
  - vm_compute. reflexivity.
  - vm_compute. reflexivity.
  - reflexivity.
  - vm_compute. reflexivity.
Defined.

Lemma metadata_loaded_after_pre_run_check_witness :
  json_loads Demo.known_bad_testcase "{not json"
    = Raise (Exception "ValueError" "No JSON object could be decoded")
  /\ forall loads,
       main (with_json_loads loads Demo.known_bad_testcase)
       = ([Open "/fuzz/resources-8.js"; Open "/fuzz/fuzz-8.js";
           Print (FAILURE_HEADER_TEMPLATE "" "" "crbug.com/3")],
          Ok RETURN_FAIL).
Proof.
  split; [reflexivity|].
  refine (let H := metadata_loaded_after_pre_run_check
                     Demo.known_bad_testcase [Open "/fuzz/resources-8.js"]
                     Demo.known_bad_options Demo.known_bad
                     [Open "/fuzz/fuzz-8.js";
                      Print (FAILURE_HEADER_TEMPLATE "" "" "crbug.com/3")]
                     (Ok true)
                     [Open "/fuzz/resources-8.js"; Open "/fuzz/fuzz-8.js";
                      Print (FAILURE_HEADER_TEMPLATE "" "" "crbug.com/3")]
                     (Ok RETURN_FAIL) _ _ _ _ in _).
  - exact (proj2 (proj2 (proj2 (proj2 (proj2 H eq_refl))))).
  Unshelve.
  all: vm_compute; reflexivity.
Defined.

Lemma validation_rejects_witness :
  exists msg,
    main Demo.same_configs = ([], Raise (Exception "AssertionError" msg))
    /\ __main__ Demo.same_configs =
       ([Print (FAILURE_HEADER_TEMPLATE "" "" "internal_error");
         Print ("# Internal error: " +:+ msg);
         PrintExc (Exception "AssertionError" msg)], 2)
    /\ runs (fst (__main__ Demo.same_configs)) = [].
Proof.
  apply (validation_rejects Demo.same_configs
           (Demo.namespace "fullcode" "fullcode" "/build/d8"
              "/fuzz/fuzz-7.js")).
  - reflexivity.
  - left. split; reflexivity.
Defined.

Lemma command_lines_witness :
  exists flags1 flags2,
    CONFIGS !! "default" = Some flags1
    /\ CONFIGS !! "fullcode" = Some flags2
    /\ let run d8 flags :=
         (wrapped_command Demo.same_output Demo.usual_options d8 flags,
          "/fuzz", 3) in
       commands (fst (main Demo.same_output)) = []
       \/ commands (fst (main Demo.same_output)) = [run "/build/d8" flags1]
       \/ commands (fst (main Demo.same_output))
          = [run "/build/d8" flags1; run "/build/d8" flags2].
Proof.
  apply (command_lines Demo.same_output (fst (main Demo.same_output))
           (snd (main Demo.same_output)) [Open "/fuzz/resources-7.js"]
           Demo.usual_options).
  - vm_compute. reflexivity.
  - vm_compute. reflexivity.
Defined.

Lemma report_sources_fingerprint_witness :
  (exists tr1 d,
     main Demo.different_output
     = (tr1 ++ [Print (FAILURE_TEMPLATE d)], Ok RETURN_FAIL)
     /\ d = report_fields Demo.usual_options
              (spec_fingerprint ["f1.js"; "f2.js"]) []
              ["--nocrankshaft"; "--turbo-filter=~"]
              (Demo.out (Demo.line "[A]")) (Demo.out (Demo.line "[B]"))
              "line 1 differs"
     /\ sources d = PyStr.join "," (List.map short_hash ["f1.js"; "f2.js"])
     /\ Forall (fun source =>
                  String.length (short_hash source) = 8%nat
                  /\ all_hex (short_hash source) = true) ["f1.js"; "f2.js"])
  /\ (exists ids d,
        [PyStr "f1.js"; PyStr "f2.js"] = List.map PyStr ids
        /\ forallb ascii_text ids = true
        /\ printed (fst (main Demo.different_output)) = [FAILURE_TEMPLATE d]
        /\ sources d = PyStr.join "," (List.map short_hash ids)).
Proof.
  destruct (report_sources_fingerprint Demo.different_output
              Demo.usual_options Demo.no_suppression Demo.metadata_value []
              ["--nocrankshaft"; "--turbo-filter=~"]
              (Demo.out (Demo.line "[A]")) (Demo.out (Demo.line "[B]"))
              (Some "line 1 differs") [PyStr "f1.js"; PyStr "f2.js"])
    as [Hreport Hany].
  - exact different_output_compared.
  - vm_compute. reflexivity.
  - reflexivity.
  - reflexivity.
  - split.
    + apply (Hreport ["f1.js"; "f2.js"]); reflexivity.
    + apply (Hany (fst (main Demo.different_output)) RETURN_FAIL).
      vm_compute. reflexivity.
Defined.

Lemma blank_answer_is_no_match_witness :
  blank (Some "  ") = true
  /\ test_pattern_bailout Demo.blank_suppression "/fuzz/fuzz-7.js"
       (Demo.always "  ")
     = ([Open "/fuzz/fuzz-7.js"], Ok false)
  /\ fail_bailout (Demo.out (Demo.line "[A]")) (Demo.always "  ")
     = ([], Ok false)
  /\ main (unblank_env Demo.blank_suppression) = main Demo.blank_suppression.
Proof.
  split; [reflexivity|].
  destruct (blank_answer_is_no_match Demo.blank_suppression "/fuzz/fuzz-7.js"
              (Demo.always "  ") "print(6 * 7)"
              (Demo.out (Demo.line "[A]")) (Demo.always "  ") (Some "  "))
    as (H1 & _ & H3 & _ & H5).
  - reflexivity.
  - reflexivity.
  - reflexivity.
  - reflexivity.
  - exact (conj H1 (conj H3 H5)).
Defined.

(** ** The further theorems on the concrete environments *)

Ltac sane :=
  constructor;
  [ first [left; discriminate | right; discriminate]
  | vm_compute; repeat constructor
  | vm_compute; repeat constructor
  | vm_compute; eexists; reflexivity
  | vm_compute; eexists; reflexivity ].

Ltac found := constructor; by_computation.

Lemma parse_args_accepts_witness :
  parse_args Cases.two_executables
  = ([Open "/fuzz/resources-7.js"],
     Ok {| random_seed := 12345;
           first_arch := "arm"; second_arch := "x64";
           first_config := "default"; second_config := "default";
           first_d8 := "/build/arm/d8"; second_d8 := "/build/d8";
           testcase := "/fuzz/fuzz-7.js";
           meta_data_path := "/fuzz/meta-7.json" |}).
Proof.
  apply (parse_args_accepts Cases.two_executables Cases.arm_x64_two
           "meta-7.json").
  - reflexivity.
  - sane.
  - found.
  - found.
  - intros _. vm_compute. discriminate.
Defined.

Lemma parse_args_returns_witness :
  exists ns line,
    argparse Demo.same_output = Ok ns
    /\ Sane ns /\ Found_testcase Demo.same_output ns
    /\ Found_rest Demo.same_output ns line
    /\ (ns_first_arch ns <> ns_second_arch ns ->
        first_d8 Demo.usual_options <> second_d8 Demo.usual_options)
    /\ Demo.usual_options = parsed_options Demo.same_output ns line
    /\ [Open "/fuzz/resources-7.js"]
       = [Open (resources_path Demo.same_output ns)].
Proof.
  apply (parse_args_returns Demo.same_output [Open "/fuzz/resources-7.js"]
           Demo.usual_options).
  vm_compute. reflexivity.
Defined.


Lemma resources_lines_rejected_witness :
  (parse_args Cases.two_line_resources
   = ([Open "/fuzz/resources-5.js"], Raise (Exception "AssertionError" ""))
   /\ snd (__main__ Cases.two_line_resources) = 2
   /\ runs (fst (__main__ Cases.two_line_resources)) = [])
  /\ (parse_args Cases.blank_resources
      = ([Open "/fuzz/resources-6.js"], Raise (Exception "AssertionError" ""))
      /\ snd (__main__ Cases.blank_resources) = 2
      /\ runs (fst (__main__ Cases.blank_resources)) = []).
Proof.
  split.
  - apply (resources_lines_rejected Cases.two_line_resources
             (Cases.namespace "/fuzz/fuzz-5.js") Cases.two_lines).
    + reflexivity.
    + sane.
    + found.
    + vm_compute. reflexivity.
    + vm_compute. discriminate.
  - apply (resources_lines_rejected Cases.blank_resources
             (Cases.namespace "/fuzz/fuzz-6.js") (" " +:+ PyStr.nl)).
    + reflexivity.
    + sane.
    + found.
    + vm_compute. reflexivity.
    + vm_compute. discriminate.
Defined.

Lemma same_executable_rejected_witness :
  parse_args Cases.two_architectures
  = ([Open "/fuzz/resources-7.js"], Raise (Exception "AssertionError" ""))
  /\ snd (__main__ Cases.two_architectures) = 2
  /\ runs (fst (__main__ Cases.two_architectures)) = [].
Proof.
  apply (same_executable_rejected Cases.two_architectures Cases.arm_x64
           "meta-7.json").
  - reflexivity.
  - sane.
  - found.
  - found.
  - discriminate.
  - reflexivity.
Defined.

Lemma main_prints_once_witness :
  (exists text, printed (fst (main Demo.different_output)) = [text])
  /\ printed (fst (main Cases.not_json)) = [].
Proof.
  split.
  - apply (main_prints_once Demo.different_output
             (fst (main Demo.different_output)) (Ok RETURN_FAIL)).
    + vm_compute. reflexivity.
    + discriminate.
  - apply (main_prints_once Cases.not_json (fst (main Cases.not_json))
             (Raise (Exception "ValueError"
                       "No JSON object could be decoded"))).
    + vm_compute. reflexivity.
    + discriminate.
Defined.

Lemma runs_of_main_witness :
  (length (runs (fst (main Cases.second_fails))) <= 2)%nat
  /\ forall e, In (Raise e) (runs (fst (main Cases.second_fails))) ->
               snd (main Cases.second_fails) = Raise e
               /\ last (runs (fst (main Cases.second_fails)))
                  = Some (Raise e).
Proof.
  apply (runs_of_main Cases.second_fails (fst (main Cases.second_fails))
           (snd (main Cases.second_fails))).
  vm_compute. reflexivity.
Defined.

Lemma files_before_runs_witness :
  exists tr0 options rest,
    parse_args Demo.same_output = (tr0, Ok options)
    /\ fst (main Demo.same_output)
       = tr0 ++ [Open (testcase options); Open (meta_data_path options);
                 JsonLoad (meta_data_path options)] ++ rest
    /\ Forall run_or_print rest.
Proof.
  apply (files_before_runs Demo.same_output (fst (main Demo.same_output))
           (snd (main Demo.same_output))).
  - vm_compute. reflexivity.
  - vm_compute. discriminate.
Defined.

Lemma return_without_run_witness :
  RETURN_FAIL = RETURN_FAIL
  /\ exists tr0 options suppress text x,
       parse_args Demo.known_bad_testcase = (tr0, Ok options)
       /\ get_suppression Demo.known_bad_testcase (first_arch options)
            (first_config options) (second_arch options)
            (second_config options) = Ok suppress
       /\ file_read Demo.known_bad_testcase (testcase options) = Ok text
       /\ ignore suppress text = Ok x
       /\ blank x = false
       /\ fst (main Demo.known_bad_testcase)
          = tr0 ++ [Open (testcase options);
                    Print (FAILURE_HEADER_TEMPLATE "" ""
                             (PyStr.strip (or_empty x)))].
Proof.
  apply (return_without_run Demo.known_bad_testcase
           (fst (main Demo.known_bad_testcase)) RETURN_FAIL).
  - vm_compute. reflexivity.
  - vm_compute. reflexivity.
Defined.

Lemma return_after_one_run_witness :
  RETURN_FAIL = RETURN_FAIL
  /\ exists tr0 options suppress x,
       parse_args Cases.first_suppressed = (tr0, Ok options)
       /\ get_suppression Cases.first_suppressed (first_arch options)
            (first_config options) (second_arch options)
            (second_config options) = Ok suppress
       /\ ignore_by_output1 suppress (stdout (Demo.out (Demo.line "42")))
          = Ok x
       /\ blank x = false
       /\ printed (fst (main Cases.first_suppressed))
          = [FAILURE_HEADER_TEMPLATE "" "" (PyStr.strip (or_empty x))].
Proof.
  apply (return_after_one_run Cases.first_suppressed
           (fst (main Cases.first_suppressed)) RETURN_FAIL
           (Demo.out (Demo.line "42"))).
  - vm_compute. reflexivity.
  - vm_compute. reflexivity.
  - reflexivity.
Defined.

Lemma return_after_two_runs_witness :
  exitCategory (Demo.out (Demo.line "[A]")) = Normal
  /\ exists tr0 options suppress,
       parse_args Demo.different_output = (tr0, Ok options)
       /\ get_suppression Demo.different_output (first_arch options)
            (first_config options) (second_arch options)
            (second_config options) = Ok suppress
       /\ ((exists x,
              ignore_by_output2 suppress (Demo.line "[B]") = Ok x
              /\ blank x = false
              /\ RETURN_FAIL = RETURN_FAIL
              /\ printed (fst (main Demo.different_output))
                 = [FAILURE_HEADER_TEMPLATE "" ""
                      (PyStr.strip (or_empty x))])
           \/ (exists x,
                 diff suppress (Demo.line "[A]") (Demo.line "[B]") = Ok x
                 /\ truthy x = false
                 /\ RETURN_FAIL = RETURN_PASS
                 /\ printed (fst (main Demo.different_output))
                    = ["# V8 correctness - pass"])
           \/ (exists x d,
                 diff suppress (Demo.line "[A]") (Demo.line "[B]") = Ok x
                 /\ truthy x = true
                 /\ RETURN_FAIL = RETURN_FAIL
                 /\ printed (fst (main Demo.different_output))
                    = [FAILURE_TEMPLATE d]
                 /\ first_config_output d = Demo.line "[A]"
                 /\ second_config_output d = Demo.line "[B]"
                 /\ difference d = or_empty x
                 /\ suppression d = "")).
Proof.
  apply (return_after_two_runs Demo.different_output
           (fst (main Demo.different_output)) RETURN_FAIL
           (Demo.out (Demo.line "[A]")) (Demo.out (Demo.line "[B]"))).
  - vm_compute. reflexivity.
  - vm_compute. reflexivity.
  - reflexivity.
Defined.

Lemma pass_line_is_no_failure_report_witness :
  ~ failure_report "# V8 correctness - pass".
Proof.
  apply (pass_line_is_no_failure_report "# V8 correctness - pass").
  left. reflexivity.
Defined.

Lemma first_text_tells_status_witness :
  exists text rest,
    printed (fst (__main__ Cases.second_fails)) = text :: rest
    /\ (snd (__main__ Cases.second_fails) = 0 /\ pass_line text /\ rest = []
        \/ snd (__main__ Cases.second_fails) = 2 /\ failure_report text).
Proof.
  apply (first_text_tells_status Cases.second_fails
           (fst (main Cases.second_fails))
           (Raise (Exception "OSError" "Exec format error"))).
  - vm_compute. reflexivity.
  - discriminate.
Defined.

Lemma fail_bailout_label_witness :
  exists x,
    Demo.always "  crbug.com/1 " "partial" = Ok x
    /\ true = negb (blank x)
    /\ (let bug := PyStr.strip (or_empty x) in
        [Print (FAILURE_HEADER_TEMPLATE "" "" "crbug.com/1")]
        = [Print (FAILURE_HEADER_TEMPLATE "" "" bug)]
        /\ bug <> EmptyString
        /\ PyStr.strip bug = bug).
Proof.
  apply (fail_bailout_label (Demo.timed_out "partial")
           (Demo.always "  crbug.com/1 ")
           [Print (FAILURE_HEADER_TEMPLATE "" "" "crbug.com/1")] true).
  vm_compute. reflexivity.
Defined.

Lemma fingerprint_needs_strings_witness :
  (sources_fingerprint Demo.metadata_value = Ok "5aebdceb,430786c4"
   <-> exists ids,
         [PyStr "f1.js"; PyStr "f2.js"] = List.map PyStr ids
         /\ forallb ascii_text ids = true
         /\ "5aebdceb,430786c4" = spec_fingerprint ids)
  /\ sources_fingerprint Demo.metadata_value = Ok "5aebdceb,430786c4".
Proof.
  split.
  - apply (fingerprint_needs_strings Demo.metadata_value
             [PyStr "f1.js"; PyStr "f2.js"] "5aebdceb,430786c4").
    reflexivity.
  - vm_compute. reflexivity.
Defined.

Lemma difference_without_fingerprint_witness :
  exists tr,
    main Cases.no_sources = (tr, Raise (Exception "KeyError" "'sources'"))
    /\ runs tr = [Ok (Demo.out (Demo.line "[A]"));
                  Ok (Demo.out (Demo.line "[B]"))]
    /\ printed tr = []
    /\ __main__ Cases.no_sources =
       (tr ++ [Print (FAILURE_HEADER_TEMPLATE "" "" "internal_error");
               Print ("# Internal error: " +:+ "'sources'");
               PrintExc (Exception "KeyError" "'sources'")], 2).
Proof.
  apply (difference_without_fingerprint Cases.no_sources Demo.usual_options
           Demo.no_suppression (PyDict [("seed", PyInt 7)]) []
           ["--nocrankshaft"; "--turbo-filter=~"]
           (Demo.out (Demo.line "[A]")) (Demo.out (Demo.line "[B]"))
           (Some "line 1 differs")).
  - constructor; by_computation.
  - vm_compute. reflexivity.
  - reflexivity.
  - vm_compute. reflexivity.
Defined.

Lemma one_executable_one_architecture_witness :
  second_d8 Demo.usual_options = first_d8 Demo.usual_options
  /\ first_arch Demo.usual_options = second_arch Demo.usual_options
  /\ first_config Demo.usual_options <> second_config Demo.usual_options.
Proof.
  apply (one_executable_one_architecture Demo.same_output
           (Demo.namespace "default" "fullcode" "/build/d8" "/fuzz/fuzz-7.js")
           [Open "/fuzz/resources-7.js"] Demo.usual_options).
  - reflexivity.
  - reflexivity.
  - vm_compute. reflexivity.
Defined.

Lemma unloadable_metadata_stops_witness :
  let tr := [Open "/fuzz/resources-8.js"] ++ [Open "/fuzz/fuzz-8.js"]
            ++ [Open "/fuzz/meta-8.json"; JsonLoad "/fuzz/meta-8.json"] in
  main Cases.not_json
  = (tr, Raise (Exception "ValueError" "No JSON object could be decoded"))
  /\ runs tr = [] /\ printed tr = []
  /\ __main__ Cases.not_json =
     (tr ++ [Print (FAILURE_HEADER_TEMPLATE "" "" "internal_error");
             Print ("# Internal error: "
                      +:+ "No JSON object could be decoded");
             PrintExc (Exception "ValueError"
                         "No JSON object could be decoded")], 2).
Proof.
  apply (unloadable_metadata_stops Cases.not_json
           [Open "/fuzz/resources-8.js"] Demo.known_bad_options
           Demo.no_suppression [Open "/fuzz/fuzz-8.js"] "{not json").
  - vm_compute. reflexivity.
  - reflexivity.
  - vm_compute. reflexivity.
  - vm_compute. reflexivity.
  - vm_compute. reflexivity.
Defined.

(** ** Examples *)

Example sha1_abc :
  SHA1.hexdigest "abc" = "a9993e364706816aba3e25717850c26c9cd0d89d".
Proof. vm_compute. reflexivity. Qed.

Example sha1_empty :
  SHA1.hexdigest "" = "da39a3ee5e6b4b0d3255bfef95601890afd80709".
Proof. vm_compute. reflexivity. Qed.

Example sha1_fox :
  SHA1.hexdigest "The quick brown fox jumps over the lazy dog"
  = "2fd4e1c67a2d28fced849ee1bb76e7391b93eb12".
Proof. vm_compute. reflexivity. Qed.

Example sha1_two_blocks :
  SHA1.hexdigest "abcdbcdecdefdefgefghfghighijhijkijkljklmklmnlmnomnopnopq"
  = "84983e441c3bd26ebaae4aa1f95129e5e54670f1".
Proof. vm_compute. reflexivity. Qed.

Example str_examples :
  PyStr.str 12345 = "12345" /\ PyStr.str 0 = "0" /\ PyStr.str (-7) = "-7".
Proof. vm_compute. auto. Qed.

Example strip_examples :
  PyStr.strip "  crbug.com/1 " = "crbug.com/1"
  /\ PyStr.strip (" " +:+ PyStr.nl) = ""
  /\ PyStr.strip "a b" = "a b".
Proof. vm_compute. auto. Qed.

Example splitlines_examples :
  PyStr.splitlines ("a" +:+ PyStr.nl +:+ PyStr.nl +:+ "b") = ["a"; ""; "b"]
  /\ PyStr.splitlines ("a" +:+ PyStr.nl) = ["a"]
  /\ PyStr.splitlines "" = []
  /\ PyStr.splitlines (String PyStr.CR PyStr.nl +:+ "b") = [""; "b"].
Proof. vm_compute. auto. Qed.

Example endswith_examples :
  PyStr.endswith "/build/d8_mock.py" ".py" = true
  /\ PyStr.endswith "/build/d8" ".py" = false
  /\ PyStr.endswith "py" ".py" = false.
Proof. vm_compute. auto. Qed.

(** Seed 12345, both architectures x64, [default] against [fullcode], and
    both runs print 42: a pass, and exit status 0. *)
Example scenario_pass :
  __main__ Demo.same_output =
  ([Open "/fuzz/resources-7.js"; Open "/fuzz/fuzz-7.js";
    Open "/fuzz/meta-7.json"; JsonLoad "/fuzz/meta-7.json";
    Exec ["/build/d8"; "--abort_on_stack_overflow"; "--expose-gc";
          "--allow-natives-syntax"; "--invoke-weak-callbacks"; "--omit-quit";
          "--es-staging"; "--random-seed"; "12345";
          "/v8/tools/foozzie/v8_mock.js";
          "/v8/tools/foozzie/v8_suppressions.js"; "/fuzz/fuzz-7.js"]
         "/fuzz" 3 (Ok (Demo.out (Demo.line "42")));
    Exec ["/build/d8"; "--abort_on_stack_overflow"; "--expose-gc";
          "--allow-natives-syntax"; "--invoke-weak-callbacks"; "--omit-quit";
          "--es-staging"; "--random-seed"; "12345";
          "--nocrankshaft"; "--turbo-filter=~";
          "/v8/tools/foozzie/v8_mock.js";
          "/v8/tools/foozzie/v8_suppressions.js"; "/fuzz/fuzz-7.js"]
         "/fuzz" 3 (Ok (Demo.out (Demo.line "42")));
    Print "# V8 correctness - pass"],
   0).
Proof. vm_compute. reflexivity. Qed.

(** The two runs print [A] and [B] and the diff says so: the full report,
    with both outputs, and exit status 2. *)
Example scenario_difference :
  snd (__main__ Demo.different_output) = 2
  /\ last (printed (fst (__main__ Demo.different_output))) =
     Some (FAILURE_TEMPLATE
             {| configs := "x64,default:x64,fullcode";
                sources := "5aebdceb,430786c4";
                suppression := "";
                first_config_label := "x64,default";
                second_config_label := "x64,fullcode";
                first_config_flags :=
                  "--abort_on_stack_overflow --expose-gc --allow-natives-syntax --invoke-weak-callbacks --omit-quit --es-staging --random-seed 12345";
                second_config_flags :=
                  "--abort_on_stack_overflow --expose-gc --allow-natives-syntax --invoke-weak-callbacks --omit-quit --es-staging --random-seed 12345 --nocrankshaft --turbo-filter=~";
                first_config_output := Demo.line "[A]";
                second_config_output := Demo.line "[B]";
                difference := "line 1 differs" |}).
Proof. vm_compute. auto. Qed.

(** Wrong usage and a failed assertion. *)
Example scenario_wrong_usage :
  __main__ Demo.wrong_usage =
  ([Print (FAILURE_HEADER_TEMPLATE "" "" "wrong_usage")], 2).
Proof. vm_compute. reflexivity. Qed.

Example scenario_same_configs :
  __main__ Demo.same_configs =
  ([Print (FAILURE_HEADER_TEMPLATE "" "" "internal_error");
    Print "# Internal error: Need either arch or config difference.";
    PrintExc (Exception "AssertionError"
                "Need either arch or config difference.")], 2).
Proof. vm_compute. reflexivity. Qed.

(** The report of [sample_fields] holds its parts in the order of the
    template. *)
Example sample_report_order :
  in_orderb (template_order sample_fields) (FAILURE_TEMPLATE sample_fields)
  = true.
Proof. vm_compute. reflexivity. Qed.

(** [hsh] on the strings of [json.load]: a source that is not ASCII cannot
    be hashed, and the difference of the outputs is then reported as an
    internal error. *)
Example hsh_examples :
  hsh (PyStr "f1.js") = Ok "5aebdceb"
  /\ hsh (PyStr Cases.e_acute_js)
     = Raise (Exception "UnicodeEncodeError"
                "'ascii' codec can't encode character u'\xe9' in position 0: ordinal not in range(128)")
  /\ hsh (PyInt 1) = Raise (Exception "TypeError" "must be string or buffer").
Proof. vm_compute. auto. Qed.

Example scenario_non_ascii_source :
  snd (__main__ Cases.non_ascii_source) = 2
  /\ printed (fst (__main__ Cases.non_ascii_source))
     = [FAILURE_HEADER_TEMPLATE "" "" "internal_error";
        "# Internal error: 'ascii' codec can't encode character u'\xe9' in position 0: ordinal not in range(128)"].
Proof. vm_compute. auto. Qed.
